(** * waifufetch-config: the daily-quote cache and the dashboard

    A shallow embedding of [src/config.ts] and of its earlier variant
    [src/unnamed/part_000].  The file has three layers:

    - the host the scripts run on: ECMAScript time values and [Date]
      getters, the one cache file, the clock, the quote endpoint, and a
      trace of the host calls made;
    - the two scripts, transcribed statement by statement in a small
      state-and-rejection monad with early [return];
    - the properties of [sameDay], [fetchQuote] and [config.dashboard]. *)

From Stdlib Require Import ZArith Lia Bool List String Ascii.
Import ListNotations.
Open Scope string_scope.
Open Scope Z_scope.

(** ** ECMAScript time values

    A time value is a number of milliseconds since 1970-01-01T00:00:00Z.
    [Day] and [TimeWithinDay] are the standard's; the year, month and day
    of a day number are computed in the proleptic Gregorian calendar by
    the usual shift to years that start on 1 March inside 400-year eras. *)

Module Time.

Definition msPerSecond : Z := 1000.
Definition msPerMinute : Z := 60000.
Definition msPerHour : Z := 3600000.
Definition msPerDay : Z := 86400000.

Definition Day (t : Z) : Z := t / msPerDay.
Definition TimeWithinDay (t : Z) : Z := t mod msPerDay.

(** Year, month (1..12) and day of the month (1..31) of a day number. *)
Definition civil_from_days (z : Z) : Z * Z * Z :=
  let z := z + 719468 in
  let era := z / 146097 in
  let doe := z mod 146097 in
  let yoe := (doe - doe / 1460 + doe / 36524 - doe / 146096) / 365 in
  let doy := doe - (365 * yoe + yoe / 4 - yoe / 100) in
  let mp := (5 * doy + 2) / 153 in
  let d := doy - (153 * mp + 2) / 5 + 1 in
  let m := if mp <? 10 then mp + 3 else mp - 9 in
  (yoe + era * 400 + (if m <=? 2 then 1 else 0), m, d).

(** The day number of a year, month and day: the inverse direction, used
    only to show that distinct days have distinct dates. *)
Definition days_from_civil (ymd : Z * Z * Z) : Z :=
  let '(y, m, d) := ymd in
  let y := if m <=? 2 then y - 1 else y in
  let era := y / 400 in
  let yoe := y mod 400 in
  let mp := if 2 <? m then m - 3 else m + 9 in
  let doy := (153 * mp + 2) / 5 + d - 1 in
  let doe := yoe * 365 + yoe / 4 - yoe / 100 + doy in
  era * 146097 + doe - 719468.

(** The day number of 1 January of year [y], as the standard defines it. *)
Definition DayFromYear (y : Z) : Z :=
  365 * (y - 1970) + (y - 1969) / 4 - (y - 1901) / 100 + (y - 1601) / 400.

Definition YearFromTime (t : Z) : Z :=
  let '(y, _, _) := civil_from_days (Day t) in y.

(** Months are numbered from 0 (January) to 11 (December). *)
Definition MonthFromTime (t : Z) : Z :=
  let '(_, m, _) := civil_from_days (Day t) in m - 1.

Definition DateFromTime (t : Z) : Z :=
  let '(_, _, d) := civil_from_days (Day t) in d.

Definition HourFromTime (t : Z) : Z := (t / msPerHour) mod 24.
Definition MinFromTime (t : Z) : Z := (t / msPerMinute) mod 60.
Definition SecFromTime (t : Z) : Z := (t / msPerSecond) mod 60.

End Time.

(** ** The host

    What the scripts take from their surroundings without it being in the
    repository: the offset of local time (it may depend on the instant,
    as with daylight saving), [Bun.color(_, "ansi")] and
    [String.prototype.trim]. *)

Class Host := {
  LocalTZA : Z -> Z;
  Bun_color : string -> string;
  String_trim : string -> string
}.

Module JS.

(** A [Date] object holds a time value; its getters read it in local time. *)
Record Date := mkDate { getTime : Z }.

Section Getters.
Context `{Host}.

Definition LocalTime (t : Z) : Z := t + LocalTZA t.

Definition getFullYear (d : Date) : Z := Time.YearFromTime (LocalTime (getTime d)).
Definition getMonth (d : Date) : Z := Time.MonthFromTime (LocalTime (getTime d)).
Definition getDate (d : Date) : Z := Time.DateFromTime (LocalTime (getTime d)).
Definition getHours (d : Date) : Z := Time.HourFromTime (LocalTime (getTime d)).
Definition getMinutes (d : Date) : Z := Time.MinFromTime (LocalTime (getTime d)).
Definition getSeconds (d : Date) : Z := Time.SecFromTime (LocalTime (getTime d)).

(** The local day number of a date: the calendar day it falls on. *)
Definition localDay (d : Date) : Z := Time.Day (LocalTime (getTime d)).

End Getters.

(** The errors a promise of the scripts can reject with. *)
Inductive Error :=
| TypeError      (* reading a property of undefined *)
| SyntaxError    (* response.json() on a body that is not JSON *)
| NetworkError   (* fetch() could not complete the request *)
| ENOENT.        (* stat or read of a file that does not exist *)

(** One element of the [Response] array of the quotes API. *)
Module Quote.
Record t := mk { q : string; a : string; i : string; c : string; h : string }.
End Quote.

Definition Response := list Quote.t.

(** What [fetch] resolves to: the status flag, and what [json()] gives
    ([None] when the body does not parse, so that [json()] rejects). *)
Record HttpResponse := mkResponse { ok : bool; body : option Response }.

(** The file at [~/.cache/motd.txt]. *)
Record FileNode := mkFile { content : string; modified : Date }.

Record Stats := mkStats { mtime : Date }.

(** The host calls that can be observed.  [EvAppend] and [EvUnlink] are
    file operations the host offers and the scripts never call. *)
Inductive Event :=
| EvExists
| EvStat
| EvNow
| EvText
| EvFetch (url : string)
| EvJson
| EvWrite (text : string)
| EvAppend (text : string)
| EvUnlink.

(** The part of the world [fetchQuote] depends on.  [network] is what the
    single request of an invocation meets: [None] when the request cannot
    be completed, the response otherwise.  File-system calls on an
    existing cache file succeed. *)
Record World := mkWorld {
  cacheDir : bool;
  cacheFile : option FileNode;
  clock : Date;
  network : option HttpResponse;
  trace : list Event
}.

(** *** Promises: state passing with rejection *)

Inductive Outcome (A : Type) :=
| Fulfilled (v : A)
| Rejected (e : Error).
Arguments Fulfilled {A} v.
Arguments Rejected {A} e.

Definition Async (A : Type) : Type := World -> Outcome A * World.

Definition resolve {A} (v : A) : Async A := fun w => (Fulfilled v, w).
Definition reject {A} (e : Error) : Async A := fun w => (Rejected e, w).

Definition andThen {A B} (m : Async A) (k : A -> Async B) : Async B :=
  fun w =>
    match m w with
    | (Fulfilled v, w') => k v w'
    | (Rejected e, w') => (Rejected e, w')
    end.

Definition emit (ev : Event) : Async unit :=
  fun w => (Fulfilled tt,
            mkWorld (cacheDir w) (cacheFile w) (clock w) (network w)
                    (trace w ++ [ev])%list).

(** *** Statements: normal completion or [return]

    A statement either completes normally with a value or returns from
    the enclosing async function.  [return e] hands over the promise [e]
    evaluates to; the function settles with it after the statement, and
    with it every enclosing [try], has been left. *)

Inductive Completion (R A : Type) :=
| Normal (v : A)
| Return (p : Async R).
Arguments Normal {R A} v.
Arguments Return {R A} p.

Definition Stmt (R A : Type) : Type := Async (Completion R A).

Definition bind {R A B} (s : Stmt R A) (k : A -> Stmt R B) : Stmt R B :=
  fun w =>
    match s w with
    | (Fulfilled (Normal v), w') => k v w'
    | (Fulfilled (Return p), w') => (Fulfilled (Return p), w')
    | (Rejected e, w') => (Rejected e, w')
    end.

(** [await p], and the evaluation of an expression with an effect. *)
Definition await {R A} (p : Async A) : Stmt R A :=
  fun w =>
    match p w with
    | (Fulfilled v, w') => (Fulfilled (Normal v), w')
    | (Rejected e, w') => (Rejected e, w')
    end.

Definition eval {R A} (p : Async A) : Stmt R A := await p.

Definition return_ {R A} (p : Async R) : Stmt R A :=
  fun w => (Fulfilled (Return p), w).

(** [if (b) { s }] *)
Definition when {R} (b : bool) (s : Stmt R unit) : Stmt R unit :=
  if b then s else fun w => (Fulfilled (Normal tt), w).

(** [try { s } catch { handler }] *)
Definition try_catch {R A} (s handler : Stmt R A) : Stmt R A :=
  fun w =>
    match s w with
    | (Rejected _, w') => handler w'
    | r => r
    end.

(** The body of an async function all of whose paths end in [return]. *)
Definition async_function {R} (body : Stmt R Empty_set) : Async R :=
  fun w =>
    match body w with
    | (Fulfilled (Normal v), _) => match v with end
    | (Fulfilled (Return p), w') => p w'
    | (Rejected e, w') => (Rejected e, w')
    end.

Declare Scope stmt_scope.
Delimit Scope stmt_scope with stmt.
Notation "x <- s ;; k" := (bind s (fun x => k))
  (at level 61, s at next level, right associativity) : stmt_scope.
Notation "s ;; k" := (bind s (fun _ => k))
  (at level 61, right associativity) : stmt_scope.

(** *** Host calls *)

(** [Bun.file(path).exists()] *)
Definition cacheFile_exists : Async bool :=
  andThen (emit EvExists) (fun _ w =>
    (Fulfilled (match cacheFile w with Some _ => true | None => false end), w)).

(** [fs.stat(path)] *)
Definition fs_stat : Async Stats :=
  andThen (emit EvStat) (fun _ w =>
    match cacheFile w with
    | Some f => (Fulfilled (mkStats (modified f)), w)
    | None => (Rejected ENOENT, w)
    end).

(** [new Date()] *)
Definition new_Date : Async Date :=
  andThen (emit EvNow) (fun _ w => (Fulfilled (clock w), w)).

(** [Bun.file(path).text()] *)
Definition cacheFile_text : Async string :=
  andThen (emit EvText) (fun _ w =>
    match cacheFile w with
    | Some f => (Fulfilled (content f), w)
    | None => (Rejected ENOENT, w)
    end).

(** [fetch(url)] *)
Definition fetch (url : string) : Async HttpResponse :=
  andThen (emit (EvFetch url)) (fun _ w =>
    match network w with
    | Some r => (Fulfilled r, w)
    | None => (Rejected NetworkError, w)
    end).

(** [response.json()] *)
Definition json (response : HttpResponse) : Async Response :=
  andThen (emit EvJson) (fun _ =>
    match body response with
    | Some data => resolve data
    | None => reject SyntaxError
    end).

(** [Bun.file(path).write(text)]: replaces the whole content, creating
    the file and its directory when they are missing. *)
Definition cacheFile_write (text : string) : Async unit :=
  andThen (emit (EvWrite text)) (fun _ w =>
    (Fulfilled tt,
     mkWorld true (Some (mkFile text (clock w))) (clock w) (network w) (trace w))).

(** [data[0]]: [undefined] when the array is empty. *)
Definition first (data : Response) : option Quote.t := nth_error data 0.

(** [x!.field]: reading a property of [undefined] throws. *)
Definition prop {A} (x : option Quote.t) (field : Quote.t -> A) : Async A :=
  match x with
  | Some r => resolve (field r)
  | None => reject TypeError
  end.

(** The line feed of the template literal. *)
Definition LF : string := String (ascii_of_nat 10) EmptyString.

End JS.

(** ** Text helpers of the dashboard *)

Module Text.

(** [s.split(sep)] for a one-character separator: never an empty array. *)
Fixpoint split (sep : ascii) (s : string) : list string :=
  match s with
  | EmptyString => [EmptyString]
  | String ch rest =>
      if Ascii.eqb ch sep then EmptyString :: split sep rest
      else match split sep rest with
           | x :: xs => String ch x :: xs
           | [] => [String ch EmptyString]
           end
  end.

(** [xs.at(-1)]: the last element, [undefined] for an empty array. *)
Definition at_last {A} (xs : list A) : option A :=
  nth_error xs (Nat.pred (List.length xs)).

Definition byte (n : Z) : string := String (ascii_of_N (Z.to_N n)) EmptyString.

(** The UTF-8 bytes of a code point; the icons are written by code point. *)
Definition utf8 (cp : Z) : string :=
  if cp <? 128 then byte cp
  else if cp <? 2048 then
    byte (192 + cp / 64) ++ byte (128 + cp mod 64)
  else if cp <? 65536 then
    byte (224 + cp / 4096) ++ byte (128 + (cp / 64) mod 64) ++ byte (128 + cp mod 64)
  else
    byte (240 + cp / 262144) ++ byte (128 + (cp / 4096) mod 64)
      ++ byte (128 + (cp / 64) mod 64) ++ byte (128 + cp mod 64).

(** The code point written as the surrogate pair [hi], [lo]. *)
Definition pair (hi lo : Z) : Z := 65536 + (hi - 55296) * 1024 + (lo - 56320).

End Text.

(** What the dashboard shows: [{ icon?, text }] or [{ divider }]. *)
Inductive DashboardEntry :=
| Line (icon : option string) (text : string)
| Divider (divider : string).

(** [process.env], as far as the scripts read it. *)
Record ProcessEnv := mkEnv {
  SHELL : option string;
  TERM : option string;
  EDITOR : option string;
  BROWSER : option string;
  DESKTOP_SESSION : option string
}.

(** The outputs of the shell commands and of reading the logo file. *)
Record System := mkSystem {
  whoami : string;
  uname_o : string;
  uname_m : string;
  uptime_p : string;
  logo_text : string;
  env : ProcessEnv
}.

(** The fields of [Config] the scripts set; the others are those of
    [fallbackConfig]. *)
Record Config := mkConfig {
  logo : string;
  dashboard : list DashboardEntry
}.

(** catppuccin mocha palette. *)
Module palette.
Definition rosewater := "#f5e0dc".
Definition flamingo := "#f2cdcd".
Definition pink := "#f5c2e7".
Definition mauve := "#cba6f7".
Definition red := "#f38ba8".
Definition maroon := "#eba0ac".
Definition peach := "#fab387".
Definition yellow := "#f9e2af".
Definition green := "#a6e3a1".
Definition teal := "#94e2d5".
Definition sky := "#89dceb".
Definition sapphire := "#74c7ec".
Definition blue := "#89b4fa".
Definition lavender := "#b4befe".
Definition text := "#cdd6f4".
End palette.

(** ** [src/config.ts] *)

Module Config.
Import JS.
Section Script.
Context `{Host}.

(** Convenience function for easier applying colors on text. *)
Definition style (color text : string) : string := Bun_color color ++ text.

(** Returns whether two dates represent the same day. *)
Definition sameDay (date1 date2 : Date) : bool :=
  (getFullYear date1 =? getFullYear date2)
  && (getMonth date1 =? getMonth date2)
  && (getDate date1 =? getDate date2).

Definition url : string := "https://zenquotes.io/api/random/".

(** Returns a daily random quote. *)
Definition fetchQuote : Async (option string) :=
  async_function (
    oldQuoteExists <- await cacheFile_exists ;;
    let oldQuote : Async (option string) :=
      if oldQuoteExists
      then andThen cacheFile_text (fun t => resolve (Some t))
      else resolve None in
    when oldQuoteExists (
      stats <- await fs_stat ;;
      let modificationTime := mtime stats in
      today <- eval new_Date ;;
      let useCachedQuote := sameDay modificationTime today in
      when useCachedQuote (
        t <- await cacheFile_text ;;
        return_ (resolve (Some t)))) ;;
    data <- try_catch (
        response <- await (fetch url) ;;
        when (negb (ok response)) (return_ oldQuote) ;;
        await (json response))
      (return_ oldQuote) ;;
    quote <- eval (prop (first data) Quote.q) ;;
    author <- eval (prop (first data) Quote.a) ;;
    let text := quote ++ LF ++ "~ " ++ author in
    await (cacheFile_write text) ;;
    return_ (resolve (Some text)))%stmt.

Definition shell (e : ProcessEnv) : option string :=
  match SHELL e with
  | Some s => Text.at_last (Text.split "/" s)
  | None => None
  end.
Definition term (e : ProcessEnv) : option string := TERM e.
Definition editor (e : ProcessEnv) : option string := EDITOR e.
Definition browser (e : ProcessEnv) : option string := BROWSER e.
Definition desktop (e : ProcessEnv) : option string := DESKTOP_SESSION e.

(** [...(x === undefined ? [] : [entry x])] *)
Definition spread {A} (x : option string) (entry : string -> A) : list A :=
  match x with
  | None => []
  | Some v => [entry v]
  end.

(** Content of the dashboard. *)
Definition dashboard_of (sys : System) (quote : option string) : list DashboardEntry :=
  let e := env sys in
  ([ Line (Some (style palette.red (Text.utf8 0xf415)))
          (style palette.text (String_trim (whoami sys)));
     Divider " ";
     Line (Some (style palette.peach (Text.utf8 (Text.pair 0xdb80 0xddc5)))) "System";
     Line (Some (style palette.peach (Text.utf8 0xebc6)))
          (style palette.text (String_trim (uname_o sys)));
     Line (Some (style palette.peach (Text.utf8 0xf4bc)))
          (style palette.text (String_trim (uname_m sys)));
     Line (Some (style palette.peach (Text.utf8 (Text.pair 0xdb81 0xdd35))))
          (style palette.text (String_trim (uptime_p sys)));
     Divider " ";
     Line (Some (style palette.yellow (Text.utf8 (Text.pair 0xdb80 0xdedc)))) "Environment" ]
   ++ spread (shell e)
        (fun v => Line (Some (style palette.yellow (Text.utf8 0xebca))) (style palette.text v))
   ++ spread (term e)
        (fun v => Line (Some (style palette.yellow (Text.utf8 0xea85))) (style palette.text v))
   ++ spread (editor e)
        (fun v => Line (Some (style palette.yellow (Text.utf8 0xf044))) (style palette.text v))
   ++ spread (browser e)
        (fun v => Line (Some (style palette.yellow (Text.utf8 (Text.pair 0xdb80 0xde39))))
                       (style palette.text v))
   ++ spread (desktop e)
        (fun v => Line (Some (style palette.yellow (Text.utf8 (Text.pair 0xdb80 0xdf79))))
                       (style palette.text v))
   ++ [ Divider " " ]
   ++ spread quote (fun v => Line None (style palette.text v)))%list.

(** The module's top level: the quote is awaited, then the configuration
    is assembled. *)
Definition config (sys : System) : Async Config :=
  andThen fetchQuote (fun quote =>
    resolve (mkConfig (logo_text sys) (dashboard_of sys quote))).

End Script.
End Config.

(** ** [src/unnamed/part_000]: the earlier variant *)

Module Part000.
Import JS.
Section Script.
Context `{Host}.

(** Returns whether two dates represent the same day. *)
Definition sameDay (date1 date2 : Date) : bool :=
  (getFullYear date1 =? getFullYear date2)
  && (getMonth date1 =? getMonth date2)
  && (getDate date1 =? getDate date2).

Definition url : string := "https://zenquotes.io/api/random/".

(** Returns a daily random quote. *)
Definition fetchQuote : Async (option string) :=
  async_function (
    cached <- await cacheFile_exists ;;
    when cached (
      stats <- await fs_stat ;;
      let modificationTime := mtime stats in
      today <- eval new_Date ;;
      let useCachedQuote := sameDay modificationTime today in
      when useCachedQuote (
        t <- await cacheFile_text ;;
        return_ (resolve (Some t)))) ;;
    response <- await (fetch url) ;;
    when (negb (ok response)) (return_ (resolve None)) ;;
    data <- await (json response) ;;
    quote <- eval (prop (first data) Quote.q) ;;
    author <- eval (prop (first data) Quote.a) ;;
    let text := quote ++ LF ++ "~ " ++ author in
    await (cacheFile_write text) ;;
    return_ (resolve (Some text)))%stmt.

(** Convenience function for easier applying colors on text. *)
Definition style (color text : string) : string := Bun_color color ++ text.

Definition shell (e : ProcessEnv) : option string :=
  match SHELL e with
  | Some s => Text.at_last (Text.split "/" s)
  | None => None
  end.
Definition term (e : ProcessEnv) : option string := TERM e.
Definition editor (e : ProcessEnv) : option string := EDITOR e.
Definition browser (e : ProcessEnv) : option string := BROWSER e.

(** [...(x === undefined ? [] : [entry x])] *)
Definition spread {A} (x : option string) (entry : string -> A) : list A :=
  match x with
  | None => []
  | Some v => [entry v]
  end.

(** Content of the dashboard. *)
Definition dashboard_of (sys : System) (quote : option string) : list DashboardEntry :=
  let e := env sys in
  ([ Line (Some (style palette.red (Text.utf8 0xf415)))
          (style palette.text (String_trim (whoami sys)));
     Divider " ";
     Line (Some (style palette.peach (Text.utf8 (Text.pair 0xdb80 0xdf79)))) "System";
     Line (Some (style palette.peach (Text.utf8 0xebc6)))
          (style palette.text (String_trim (uname_o sys)));
     Line (Some (style palette.peach (Text.utf8 0xf4bc)))
          (style palette.text (String_trim (uname_m sys)));
     Line (Some (style palette.peach (Text.utf8 (Text.pair 0xdb81 0xdd35))))
          (style palette.text (String_trim (uptime_p sys)));
     Divider " ";
     Line (Some (style palette.yellow (Text.utf8 (Text.pair 0xdb80 0xdedc)))) "Environment" ]
   ++ spread (shell e)
        (fun v => Line (Some (style palette.yellow (Text.utf8 0xebca))) (style palette.text v))
   ++ spread (term e)
        (fun v => Line (Some (style palette.yellow (Text.utf8 0xea85))) (style palette.text v))
   ++ spread (editor e)
        (fun v => Line (Some (style palette.yellow (Text.utf8 0xf044))) (style palette.text v))
   ++ spread (browser e)
        (fun v => Line (Some (style palette.yellow (Text.utf8 (Text.pair 0xdb80 0xde39))))
                       (style palette.text v))
   ++ [ Divider " " ]
   ++ spread quote (fun v => Line None (style palette.text v)))%list.

(** The module's top level: the quote is awaited, then the configuration
    is assembled. *)
Definition config (sys : System) : Async Config :=
  andThen fetchQuote (fun quote =>
    resolve (mkConfig (logo_text sys) (dashboard_of sys quote))).

End Script.
End Part000.

(** ** Vocabulary of the properties *)

Module Spec.
Import JS.

(** The host calls a computation makes when started in [w]. *)
Definition emitted {A} (p : Async A) (w : World) : list Event :=
  skipn (List.length (trace w)) (trace (snd (p w))).

Definition is_network_call (ev : Event) : bool :=
  match ev with EvFetch _ => true | _ => false end.

Definition is_write (ev : Event) : bool :=
  match ev with EvWrite _ => true | _ => false end.

Definition is_append_or_delete (ev : Event) : bool :=
  match ev with EvAppend _ | EvUnlink => true | _ => false end.

(** The cache entry exists and was last modified on today's local
    calendar day. *)
Definition fresh `{Host} (w : World) : Prop :=
  exists f, cacheFile w = Some f /\ localDay (modified f) = localDay (clock w).

(** The cache entry exists and was last modified on another day. *)
Definition stale `{Host} (w : World) (f : FileNode) : Prop :=
  cacheFile w = Some f /\ localDay (modified f) <> localDay (clock w).

(** The request cannot be completed, or the response has a non-success
    status. *)
Definition fetch_failed (w : World) : Prop :=
  network w = None \/ exists b, network w = Some (mkResponse false b).

(** The request is answered with a success status and a body that parses
    to [data]. *)
Definition fetch_succeeded (w : World) (data : Response) : Prop :=
  network w = Some (mkResponse true (Some data)).

(** The two lines of a quote: the text, a line feed, ["~ "], the author. *)
Definition two_lines (quote author : string) : string :=
  quote ++ String "010"%char "~ " ++ author.

(** [w] after the host calls [evs], nothing else changed. *)
Definition logged (evs : list Event) (w : World) : World :=
  mkWorld (cacheDir w) (cacheFile w) (clock w) (network w) (trace w ++ evs)%list.

(** [w] after the cache file was replaced by [text]. *)
Definition stored (text : string) (w : World) : World :=
  mkWorld true (Some (mkFile text (clock w))) (clock w) (network w) (trace w).

(** The calls of [fetchQuote] up to the freshness test. *)
Definition probe (w : World) : list Event :=
  match cacheFile w with
  | Some _ => [EvExists; EvStat; EvNow]
  | None => [EvExists]
  end.

(** What [oldQuote()] gives, and the calls it makes. *)
Definition old_quote (w : World) : option string :=
  match cacheFile w with
  | Some f => Some (content f)
  | None => None
  end.

Definition old_quote_calls (w : World) : list Event :=
  match cacheFile w with
  | Some _ => [EvText]
  | None => []
  end.

(** The freshness test of [fetchQuote]: the entry exists and [sameDay]
    accepts its modification time and the clock. *)
Definition uses_cache `{Host} (w : World) : bool :=
  match cacheFile w with
  | Some f => Config.sameDay (modified f) (clock w)
  | None => false
  end.

(** The values among [xs] that are present, each with its label. *)
Fixpoint omit_absent {A} (xs : list (A * option string)) : list (A * string) :=
  match xs with
  | [] => []
  | (k, Some v) :: rest => (k, v) :: omit_absent rest
  | (_, None) :: rest => omit_absent rest
  end.

Definition present (x : option string) : nat :=
  match x with Some _ => 1%nat | None => 0%nat end.

Definition has_icon (e : DashboardEntry) : bool :=
  match e with Line (Some _) _ => true | _ => false end.

Definition text_only (e : DashboardEntry) : bool :=
  match e with Line None _ => true | _ => false end.

Definition is_divider (e : DashboardEntry) : bool :=
  match e with Divider _ => true | _ => false end.

(** [w] at another instant, and [w] with another answer of the network. *)
Definition with_clock (now : Date) (w : World) : World :=
  mkWorld (cacheDir w) (cacheFile w) now (network w) (trace w).

Definition with_network (net : option HttpResponse) (w : World) : World :=
  mkWorld (cacheDir w) (cacheFile w) (clock w) net (trace w).

(** A later invocation: the world an invocation left, at the instant
    [now] and with the network answering [net]. *)
Definition later (now : Date) (net : option HttpResponse) (w : World) : World :=
  with_clock now (with_network net w).

(** The request is answered with a success status and a body that is not
    JSON. *)
Definition fetch_unparsable (w : World) : Prop :=
  network w = Some (mkResponse true None).

(** A text of the form quote, line feed, ["~ "], author. *)
Definition two_line_text (s : string) : Prop :=
  exists quote author, s = two_lines quote author.

(** The cache file, if there is one, holds a two-line text. *)
Definition cache_well_formed (w : World) : Prop :=
  forall f, cacheFile w = Some f -> two_line_text (content f).

(** A cache file lies in an existing directory. *)
Definition file_in_directory (w : World) : Prop :=
  forall f, cacheFile w = Some f -> cacheDir w = true.

(** [xs.join(sep)] *)
Fixpoint join (sep : string) (xs : list string) : string :=
  match xs with
  | [] => EmptyString
  | [x] => x
  | x :: rest => x ++ sep ++ join sep rest
  end.

(** Whether the character [ch] occurs in [s]. *)
Fixpoint occurs (ch : ascii) (s : string) : bool :=
  match s with
  | EmptyString => false
  | String ch' rest => Ascii.eqb ch' ch || occurs ch rest
  end.

(** Whether two dividers follow each other somewhere in the list. *)
Fixpoint adjacent_dividers (d : list DashboardEntry) : bool :=
  match d with
  | Divider _ :: ((Divider _ :: _) as rest) => true
  | _ :: rest => adjacent_dividers rest
  | [] => false
  end.

(** The text an entry shows, and its icon if it has one. *)
Definition entry_text (e : DashboardEntry) : string :=
  match e with Line _ t => t | Divider t => t end.

Definition entry_icon (e : DashboardEntry) : option string :=
  match e with Line icon _ => icon | Divider _ => None end.

(** [process.env] without [DESKTOP_SESSION]. *)
Definition without_desktop (sys : System) : System :=
  mkSystem (whoami sys) (uname_o sys) (uname_m sys) (uptime_p sys) (logo_text sys)
    (mkEnv (SHELL (env sys)) (TERM (env sys)) (EDITOR (env sys)) (BROWSER (env sys)) None).

End Spec.

(** ** Sample hosts and worlds

    A host one hour east of Greenwich and a few worlds around the night
    from 9 to 10 March 2024, on which the properties are exercised. *)

Module Sample.
Import JS.

Definition host : Host := {|
  LocalTZA := fun _ => 3600000;
  Bun_color := fun color => "[" ++ color ++ "]";
  String_trim := fun s => s
|}.

(** The date whose local time on [host] is [y]-[m]-[d] [hh]:[mm]:[ss]. *)
Definition local (y m d hh mm ss : Z) : Date :=
  mkDate (Time.days_from_civil (y, m, d) * Time.msPerDay
          + hh * Time.msPerHour + mm * Time.msPerMinute + ss * Time.msPerSecond
          - 3600000).

Definition old_text : string := Spec.two_lines "Old" "X".

Definition old_file (modified : Date) : FileNode := mkFile old_text modified.

Definition record (quote author : string) : Quote.t :=
  Quote.mk quote author "" "" "".

Definition answer (data : Response) : option HttpResponse :=
  Some (mkResponse true (Some data)).

Definition refused : option HttpResponse := Some (mkResponse false None).

(** Cache written in the morning, read in the evening of the same day. *)
Definition same_day (net : option HttpResponse) : World :=
  mkWorld true (Some (old_file (local 2024 3 10 8 0 0))) (local 2024 3 10 21 30 0) net [].

(** Cache written in the last second of 9 March, read at midnight. *)
Definition next_day (net : option HttpResponse) : World :=
  mkWorld true (Some (old_file (local 2024 3 9 23 59 59))) (local 2024 3 10 0 0 0) net [].

(** No cache entry and no cache directory yet. *)
Definition first_run (net : option HttpResponse) : World :=
  mkWorld false None (local 2024 3 10 0 0 0) net [].

Definition system : System :=
  mkSystem "alice" "GNU/Linux" "x86_64" "up 2 hours" "logo"
    (mkEnv (Some "/usr/bin/fish") None (Some "hx") None (Some "sway")).

End Sample.

(** ** Proof steps

    [run_script] unfolds a script and the host calls down to the tests it
    makes on the world; [tidy_trace] brings the trace to the form
    [trace w ++ calls]. *)

Import JS Spec.

Ltac run_script :=
  cbv [Config.fetchQuote Part000.fetchQuote async_function bind await eval
       return_ when try_catch andThen emit resolve reject
       cacheFile_exists fs_stat new_Date cacheFile_text fetch json
       cacheFile_write first prop nth_error
       cacheDir cacheFile clock network trace mtime modified content ok body
       negb uses_cache old_quote old_quote_calls probe logged stored
       two_lines LF ascii_of_nat ascii_of_pos Config.url Part000.url].

Ltac tidy_trace := rewrite <- ?app_assoc; cbn [app]; try reflexivity.

(** ** Properties *)

(** *** The calendar *)

Lemma days_from_civil_from_days (z : Z) :
  Time.days_from_civil (Time.civil_from_days z) = z.
Proof.
  unfold Time.days_from_civil, Time.civil_from_days.
  cbv zeta.
  repeat match goal with
         | |- context [if ?b then _ else _] => destruct b eqn:?
         end;
    Z.to_euclidean_division_equations; lia.
Qed.

Lemma civil_from_days_inj (z1 z2 : Z) :
  Time.civil_from_days z1 = Time.civil_from_days z2 -> z1 = z2.
Proof.
  intros E.
  rewrite <- (days_from_civil_from_days z1), <- (days_from_civil_from_days z2).
  now rewrite E.
Qed.

(** The year is the one the standard defines (the year whose first day
    is the latest not after the day), and month and day are in range. *)
Lemma civil_from_days_in_year (z : Z) :
  let '(y, m, d) := Time.civil_from_days z in
  Time.DayFromYear y <= z < Time.DayFromYear (y + 1) /\ 1 <= m <= 12 /\ 1 <= d <= 31.
Proof.
  unfold Time.civil_from_days, Time.DayFromYear. cbv zeta.
  repeat match goal with
         | |- context [if ?b then _ else _] => destruct b eqn:?
         end;
    Z.to_euclidean_division_equations; lia.
Qed.

Example epoch_day : Time.civil_from_days 0 = (1970, 1, 1).
Proof. reflexivity. Qed.

Example day_before_epoch : Time.civil_from_days (-1) = (1969, 12, 31).
Proof. reflexivity. Qed.

Example leap_day_2000 : Time.civil_from_days 11016 = (2000, 2, 29).
Proof. reflexivity. Qed.

Example no_leap_day_1900 :
  Time.civil_from_days (-25509) = (1900, 2, 28)
  /\ Time.civil_from_days (-25508) = (1900, 3, 1).
Proof. split; reflexivity. Qed.

Example last_second_of_9_march :
  let d := Sample.local 2024 3 9 23 59 59 in
  (@getFullYear Sample.host d, @getMonth Sample.host d, @getDate Sample.host d,
   @getHours Sample.host d, @getMinutes Sample.host d, @getSeconds Sample.host d)
  = (2024, 2, 9, 23, 59, 59).
Proof. vm_compute. reflexivity. Qed.

Section Calendar.
Context `{Host}.

Lemma same_fields_iff_localDay (d1 d2 : Date) :
  getFullYear d1 = getFullYear d2 /\ getMonth d1 = getMonth d2 /\ getDate d1 = getDate d2
  <-> localDay d1 = localDay d2.
Proof.
  unfold getFullYear, getMonth, getDate, localDay,
    Time.YearFromTime, Time.MonthFromTime, Time.DateFromTime.
  split.
  - intros (Hy & Hm & Hd).
    apply civil_from_days_inj.
    destruct (Time.civil_from_days (Time.Day (LocalTime (getTime d1)))) as [[y1 m1] dd1].
    destruct (Time.civil_from_days (Time.Day (LocalTime (getTime d2)))) as [[y2 m2] dd2].
    f_equal; [f_equal|]; lia.
  - intros ->. repeat split.
Qed.

Lemma Config_sameDay_fields (d1 d2 : Date) :
  Config.sameDay d1 d2 = true
  <-> getFullYear d1 = getFullYear d2 /\ getMonth d1 = getMonth d2 /\ getDate d1 = getDate d2.
Proof.
  unfold Config.sameDay.
  rewrite !andb_true_iff, !Z.eqb_eq. tauto.
Qed.

Lemma Config_sameDay_localDay (d1 d2 : Date) :
  Config.sameDay d1 d2 = true <-> localDay d1 = localDay d2.
Proof.
  rewrite Config_sameDay_fields. apply same_fields_iff_localDay.
Qed.

Lemma Part000_sameDay_eq (d1 d2 : Date) :
  Part000.sameDay d1 d2 = Config.sameDay d1 d2.
Proof. reflexivity. Qed.

Lemma Config_sameDay_false (d1 d2 : Date) :
  localDay d1 <> localDay d2 -> Config.sameDay d1 d2 = false.
Proof.
  intros Hne. destruct (Config.sameDay d1 d2) eqn:E; [|reflexivity].
  apply Config_sameDay_localDay in E. contradiction.
Qed.

End Calendar.

(** *** The decision tree of [fetchQuote] *)

Section DecisionTree.
Context `{Host}.

Lemma Config_fetchQuote_eq (w : World) :
  Config.fetchQuote w =
    if uses_cache w then
      (Fulfilled (old_quote w), logged (probe w ++ [EvText]) w)
    else
      match network w with
      | None =>
          (Fulfilled (old_quote w),
           logged (probe w ++ [EvFetch Config.url] ++ old_quote_calls w) w)
      | Some (mkResponse false _) =>
          (Fulfilled (old_quote w),
           logged (probe w ++ [EvFetch Config.url] ++ old_quote_calls w) w)
      | Some (mkResponse true None) =>
          (Fulfilled (old_quote w),
           logged (probe w ++ [EvFetch Config.url; EvJson] ++ old_quote_calls w) w)
      | Some (mkResponse true (Some [])) =>
          (Rejected TypeError,
           logged (probe w ++ [EvFetch Config.url; EvJson]) w)
      | Some (mkResponse true (Some (r :: _))) =>
          let text := two_lines (Quote.q r) (Quote.a r) in
          (Fulfilled (Some text),
           logged (probe w ++ [EvFetch Config.url; EvJson; EvWrite text]) (stored text w))
      end.
Proof.
  destruct w as [dir [f|] clk [[[|] [[|r rest]|]]|] tr]; run_script;
    try destruct (Config.sameDay _ _); tidy_trace.
Qed.

Lemma Part000_fetchQuote_eq (w : World) :
  Part000.fetchQuote w =
    if uses_cache w then
      (Fulfilled (old_quote w), logged (probe w ++ [EvText]) w)
    else
      match network w with
      | None =>
          (Rejected NetworkError, logged (probe w ++ [EvFetch Part000.url]) w)
      | Some (mkResponse false _) =>
          (Fulfilled None, logged (probe w ++ [EvFetch Part000.url]) w)
      | Some (mkResponse true None) =>
          (Rejected SyntaxError, logged (probe w ++ [EvFetch Part000.url; EvJson]) w)
      | Some (mkResponse true (Some [])) =>
          (Rejected TypeError, logged (probe w ++ [EvFetch Part000.url; EvJson]) w)
      | Some (mkResponse true (Some (r :: _))) =>
          let text := two_lines (Quote.q r) (Quote.a r) in
          (Fulfilled (Some text),
           logged (probe w ++ [EvFetch Part000.url; EvJson; EvWrite text]) (stored text w))
      end.
Proof.
  destruct w as [dir [f|] clk [[[|] [[|r rest]|]]|] tr]; run_script;
    rewrite ?Part000_sameDay_eq;
    try destruct (Config.sameDay _ _); tidy_trace.
Qed.

End DecisionTree.

(** *** Bookkeeping of the trace *)

Lemma skipn_length_app {A} (l evs : list A) :
  skipn (List.length l) (l ++ evs) = evs.
Proof. induction l as [|x l IH]; [reflexivity | exact IH]. Qed.

Lemma emitted_logged {A} (p : Async A) (w w0 : World) (r : Outcome A) (evs : list Event) :
  p w = (r, logged evs w0) -> trace w0 = trace w -> emitted p w = evs.
Proof.
  intros E T. unfold emitted. rewrite E. cbn [snd logged trace].
  rewrite T. apply skipn_length_app.
Qed.

Section Freshness.
Context `{Host}.

Lemma uses_cache_fresh (w : World) : uses_cache w = true <-> fresh w.
Proof.
  unfold uses_cache, fresh. destruct (cacheFile w) as [f|].
  - rewrite Config_sameDay_localDay. split.
    + intros E. exists f. split; [reflexivity | exact E].
    + intros (f' & Ef & E). now inversion Ef; subst.
  - split; [discriminate | intros (f' & Ef & _); discriminate].
Qed.

Lemma uses_cache_stale (w : World) (f : FileNode) : stale w f -> uses_cache w = false.
Proof.
  intros [Ef Hne]. unfold uses_cache. rewrite Ef.
  now apply Config_sameDay_false.
Qed.

Lemma uses_cache_absent (w : World) : cacheFile w = None -> uses_cache w = false.
Proof. intros E. unfold uses_cache. now rewrite E. Qed.

Lemma uses_cache_not_fresh (w : World) :
  cacheFile w = None \/ (exists f, stale w f) -> uses_cache w = false.
Proof.
  intros [E | [f S]]; [now apply uses_cache_absent | now apply uses_cache_stale with f].
Qed.

End Freshness.

(** *** The paths of [fetchQuote] in [src/config.ts] *)

(** C1. Same-day reuse: when the cache file exists and was last modified
    on the local calendar day of the current date, [fetchQuote] returns
    exactly the content of the file; the host calls it makes are the
    existence test, the stat, the clock and the read, so none of them is
    a network request, and the file is left as it was. *)
Theorem C1_same_day_reuse `{Host} (w : World) (f : FileNode) :
  cacheFile w = Some f ->
  localDay (modified f) = localDay (clock w) ->
  fst (Config.fetchQuote w) = Fulfilled (Some (content f))
  /\ emitted Config.fetchQuote w = [EvExists; EvStat; EvNow; EvText]
  /\ existsb is_network_call (emitted Config.fetchQuote w) = false
  /\ cacheFile (snd (Config.fetchQuote w)) = Some f.
Proof.
  intros Ef Hday.
  assert (U : uses_cache w = true) by (apply uses_cache_fresh; exists f; auto).
  pose proof (Config_fetchQuote_eq w) as E. rewrite U in E.
  assert (Em : emitted Config.fetchQuote w = [EvExists; EvStat; EvNow; EvText]).
  { erewrite emitted_logged; [| exact E | reflexivity].
    unfold probe. now rewrite Ef. }
  rewrite Em, E. cbn [fst snd logged cacheFile].
  unfold old_quote. rewrite Ef. repeat split.
Qed.

Lemma C1_same_day_reuse_witness :
  cacheFile (Sample.same_day None) = Some (Sample.old_file (Sample.local 2024 3 10 8 0 0))
  /\ @localDay Sample.host (Sample.local 2024 3 10 8 0 0)
     = @localDay Sample.host (clock (Sample.same_day None))
  /\ fst (@Config.fetchQuote Sample.host (Sample.same_day None))
     = Fulfilled (Some Sample.old_text).
Proof.
  split; [reflexivity | split; [vm_compute; reflexivity |]].
  apply (@C1_same_day_reuse Sample.host (Sample.same_day None)
           (Sample.old_file (Sample.local 2024 3 10 8 0 0))).
  - reflexivity.
  - vm_compute; reflexivity.
Defined.

(** C2. Refresh: when the cache entry is absent or was last modified on
    another calendar day, and the request is answered with a success
    status and an array whose first record has quote [q] and author [a],
    [fetchQuote] returns [q], a line feed, ["~ "] and [a]; the cache file
    then exists, in an existing directory, with exactly that text, and
    that text was written once. *)
Theorem C2_refresh_writes_two_lines `{Host} (w : World) (r : Quote.t) (rest : Response) :
  cacheFile w = None \/ (exists f, stale w f) ->
  fetch_succeeded w (r :: rest) ->
  let text := (Quote.q r ++ String "010"%char "~ " ++ Quote.a r)%string in
  fst (Config.fetchQuote w) = Fulfilled (Some text)
  /\ option_map content (cacheFile (snd (Config.fetchQuote w))) = Some text
  /\ cacheDir (snd (Config.fetchQuote w)) = true
  /\ filter is_write (emitted Config.fetchQuote w) = [EvWrite text].
Proof.
  intros Hc Hn text.
  pose proof (Config_fetchQuote_eq w) as E.
  rewrite (uses_cache_not_fresh w Hc) in E.
  unfold fetch_succeeded in Hn. rewrite Hn in E. cbv zeta in E.
  fold text in E. change (two_lines (Quote.q r) (Quote.a r)) with text in E.
  erewrite emitted_logged; [| exact E | reflexivity].
  rewrite E. cbn [fst snd logged stored cacheFile cacheDir option_map content].
  repeat split.
  unfold probe. destruct (cacheFile w); reflexivity.
Qed.

Lemma C2_refresh_writes_two_lines_witness :
  (cacheFile (Sample.first_run (Sample.answer [Sample.record "Hi" "Bob"])) = None
   \/ exists f, @stale Sample.host (Sample.first_run (Sample.answer [Sample.record "Hi" "Bob"])) f)
  /\ fetch_succeeded (Sample.first_run (Sample.answer [Sample.record "Hi" "Bob"]))
       [Sample.record "Hi" "Bob"]
  /\ fst (@Config.fetchQuote Sample.host
            (Sample.first_run (Sample.answer [Sample.record "Hi" "Bob"])))
     = Fulfilled (Some ("Hi" ++ String "010"%char "~ Bob")%string).
Proof.
  split; [left; reflexivity | split; [reflexivity |]].
  apply (@C2_refresh_writes_two_lines Sample.host
           (Sample.first_run (Sample.answer [Sample.record "Hi" "Bob"]))
           (Sample.record "Hi" "Bob") []).
  - left; reflexivity.
  - reflexivity.
Defined.

(** C3. Failure with a prior cache: when a cache entry with content [C]
    exists, last modified on another calendar day, and the request fails
    with a transport error or is answered with a non-success status,
    [fetchQuote] is fulfilled with [C] (it does not reject), and the
    cache entry is the one it was: nothing was written. *)
Theorem C3_failure_returns_prior_cache `{Host} (w : World) (f : FileNode) :
  stale w f ->
  fetch_failed w ->
  fst (Config.fetchQuote w) = Fulfilled (Some (content f))
  /\ cacheFile (snd (Config.fetchQuote w)) = Some f
  /\ existsb is_write (emitted Config.fetchQuote w) = false.
Proof.
  intros S Hn. pose proof S as [Ef _].
  pose proof (Config_fetchQuote_eq w) as E.
  rewrite (uses_cache_stale w f S) in E.
  assert (E' : Config.fetchQuote w =
               (Fulfilled (old_quote w),
                logged (probe w ++ [EvFetch Config.url] ++ old_quote_calls w) w)).
  { destruct Hn as [Hn | [b Hn]]; rewrite Hn in E; exact E. }
  erewrite emitted_logged; [| exact E' | reflexivity].
  rewrite E'. cbn [fst snd logged cacheFile].
  unfold old_quote, probe, old_quote_calls. rewrite Ef. repeat split.
Qed.

Lemma C3_failure_returns_prior_cache_witness :
  @stale Sample.host (Sample.next_day None) (Sample.old_file (Sample.local 2024 3 9 23 59 59))
  /\ fetch_failed (Sample.next_day None)
  /\ fst (@Config.fetchQuote Sample.host (Sample.next_day None))
     = Fulfilled (Some Sample.old_text).
Proof.
  assert (S : @stale Sample.host (Sample.next_day None)
                (Sample.old_file (Sample.local 2024 3 9 23 59 59))).
  { split; [reflexivity | vm_compute; discriminate]. }
  split; [exact S | split; [left; reflexivity |]].
  apply (@C3_failure_returns_prior_cache Sample.host (Sample.next_day None)
           (Sample.old_file (Sample.local 2024 3 9 23 59 59)) S).
  left; reflexivity.
Defined.

(** C4. Failure with no prior cache: when no cache entry exists and the
    request fails or is answered with a non-success status, [fetchQuote]
    is fulfilled with [undefined]; no cache file exists afterwards, the
    cache directory is as it was, and nothing was written. *)
Theorem C4_failure_without_cache_is_absent `{Host} (w : World) :
  cacheFile w = None ->
  fetch_failed w ->
  fst (Config.fetchQuote w) = Fulfilled None
  /\ cacheFile (snd (Config.fetchQuote w)) = None
  /\ cacheDir (snd (Config.fetchQuote w)) = cacheDir w
  /\ existsb is_write (emitted Config.fetchQuote w) = false.
Proof.
  intros Ef Hn.
  pose proof (Config_fetchQuote_eq w) as E.
  rewrite (uses_cache_absent w Ef) in E.
  assert (E' : Config.fetchQuote w =
               (Fulfilled (old_quote w),
                logged (probe w ++ [EvFetch Config.url] ++ old_quote_calls w) w)).
  { destruct Hn as [Hn | [b Hn]]; rewrite Hn in E; exact E. }
  erewrite emitted_logged; [| exact E' | reflexivity].
  rewrite E'. cbn [fst snd logged cacheFile cacheDir].
  unfold old_quote, probe, old_quote_calls. rewrite Ef. repeat split.
Qed.

Lemma C4_failure_without_cache_is_absent_witness :
  cacheFile (Sample.first_run Sample.refused) = None
  /\ fetch_failed (Sample.first_run Sample.refused)
  /\ fst (@Config.fetchQuote Sample.host (Sample.first_run Sample.refused)) = Fulfilled None.
Proof.
  split; [reflexivity | split; [right; exists None; reflexivity |]].
  apply (@C4_failure_without_cache_is_absent Sample.host (Sample.first_run Sample.refused)).
  - reflexivity.
  - right; exists None; reflexivity.
Defined.

(** C5. A success status with an empty array.  The claim asks that this
    be handled like a failed request (the prior content, or [undefined]).
    The script does not do so: [data[0]] is [undefined], reading its [q]
    throws outside the [try], so [fetchQuote] rejects with a [TypeError]
    whether or not a cache entry exists, and with it the top level of the
    module, which awaits it unguarded. *)
Theorem C5_empty_array_rejects `{Host} (w : World) :
  cacheFile w = None \/ (exists f, stale w f) ->
  fetch_succeeded w [] ->
  fst (Config.fetchQuote w) = Rejected TypeError
  /\ fst (Config.fetchQuote w) <> Fulfilled (old_quote w)
  /\ (forall sys, fst (Config.config sys w) = Rejected TypeError)
  /\ cacheFile (snd (Config.fetchQuote w)) = cacheFile w.
Proof.
  intros Hc Hn.
  pose proof (Config_fetchQuote_eq w) as E.
  rewrite (uses_cache_not_fresh w Hc) in E.
  unfold fetch_succeeded in Hn. rewrite Hn in E.
  split; [now rewrite E | split; [now rewrite E | split]].
  - intros sys. unfold Config.config, andThen. now rewrite E.
  - now rewrite E.
Qed.

Lemma C5_empty_array_rejects_witness :
  (cacheFile (Sample.next_day (Sample.answer [])) = None
   \/ exists f, @stale Sample.host (Sample.next_day (Sample.answer [])) f)
  /\ fetch_succeeded (Sample.next_day (Sample.answer [])) []
  /\ fst (@Config.fetchQuote Sample.host (Sample.next_day (Sample.answer [])))
     = Rejected TypeError.
Proof.
  assert (S : cacheFile (Sample.next_day (Sample.answer [])) = None
              \/ exists f, @stale Sample.host (Sample.next_day (Sample.answer [])) f).
  { right. exists (Sample.old_file (Sample.local 2024 3 9 23 59 59)).
    split; [reflexivity | vm_compute; discriminate]. }
  split; [exact S | split; [reflexivity |]].
  apply (@C5_empty_array_rejects Sample.host (Sample.next_day (Sample.answer [])) S).
  reflexivity.
Defined.

(** *** Freshness *)

Lemma last_second_then_next_day (t : Z) :
  Time.HourFromTime t = 23 -> Time.MinFromTime t = 59 -> Time.SecFromTime t = 59 ->
  Time.Day (t + 1000) = Time.Day t + 1.
Proof.
  unfold Time.HourFromTime, Time.MinFromTime, Time.SecFromTime, Time.Day,
    Time.msPerHour, Time.msPerMinute, Time.msPerSecond, Time.msPerDay.
  intros Hh Hm Hs.
  Z.to_euclidean_division_equations; lia.
Qed.

Lemma stale_entry_is_refetched `{Host} (w : World) (f : FileNode) :
  stale w f -> existsb is_network_call (emitted Config.fetchQuote w) = true.
Proof.
  intros S. pose proof S as [Ef _].
  pose proof (Config_fetchQuote_eq w) as E.
  rewrite (uses_cache_stale w f S) in E.
  unfold probe, old_quote_calls in E. rewrite Ef in E.
  destruct (network w) as [[[|] [[|r rest]|]]|];
    (erewrite emitted_logged; [| exact E | reflexivity]); reflexivity.
Qed.

(** C6. Freshness is equality of calendar days, not elapsed time:
    [sameDay] holds exactly when the two dates have the same local year,
    month and day of the month, which is exactly when they fall on the
    same local day; so a cache entry modified at 23:59:59 of a day is
    stale, and [fetchQuote] goes to the network, at every instant of the
    following day, and already one second after the modification (the
    offset of local time being the same at both instants). *)
Theorem C6_freshness_is_calendar_day_equality `{Host} :
  (forall d1 d2 : Date,
      Config.sameDay d1 d2 = true
      <-> getFullYear d1 = getFullYear d2 /\ getMonth d1 = getMonth d2
          /\ getDate d1 = getDate d2)
  /\ (forall d1 d2 : Date, Config.sameDay d1 d2 = true <-> localDay d1 = localDay d2)
  /\ (forall (w : World) (f : FileNode),
         cacheFile w = Some f ->
         getHours (modified f) = 23 -> getMinutes (modified f) = 59 ->
         getSeconds (modified f) = 59 ->
         localDay (clock w) = localDay (modified f) + 1 ->
         Config.sameDay (modified f) (clock w) = false
         /\ existsb is_network_call (emitted Config.fetchQuote w) = true)
  /\ (forall (w : World) (f : FileNode),
         cacheFile w = Some f ->
         getHours (modified f) = 23 -> getMinutes (modified f) = 59 ->
         getSeconds (modified f) = 59 ->
         getTime (clock w) = getTime (modified f) + 1000 ->
         LocalTZA (getTime (clock w)) = LocalTZA (getTime (modified f)) ->
         Config.sameDay (modified f) (clock w) = false
         /\ existsb is_network_call (emitted Config.fetchQuote w) = true).
Proof.
  assert (Next : forall (w : World) (f : FileNode),
             cacheFile w = Some f ->
             localDay (clock w) = localDay (modified f) + 1 ->
             Config.sameDay (modified f) (clock w) = false
             /\ existsb is_network_call (emitted Config.fetchQuote w) = true).
  { intros w f Ef Hd.
    assert (S : stale w f) by (split; [exact Ef | lia]).
    split; [apply Config_sameDay_false; lia | now apply stale_entry_is_refetched with f]. }
  split; [exact Config_sameDay_fields | split; [exact Config_sameDay_localDay | split]].
  - intros w f Ef _ _ _ Hd. now apply Next.
  - intros w f Ef Hh Hm Hs Ht Htz. apply Next; [exact Ef |].
    unfold getHours, getMinutes, getSeconds in Hh, Hm, Hs.
    unfold localDay, LocalTime in *. rewrite Htz, Ht.
    replace (getTime (modified f) + 1000 + LocalTZA (getTime (modified f)))
      with (getTime (modified f) + LocalTZA (getTime (modified f)) + 1000) by lia.
    now apply last_second_then_next_day.
Qed.

Lemma C6_freshness_is_calendar_day_equality_witness :
  @getHours Sample.host (Sample.local 2024 3 9 23 59 59) = 23
  /\ @getMinutes Sample.host (Sample.local 2024 3 9 23 59 59) = 59
  /\ @getSeconds Sample.host (Sample.local 2024 3 9 23 59 59) = 59
  /\ getTime (Sample.local 2024 3 9 23 59 59 ) + 1000 = getTime (Sample.local 2024 3 10 0 0 0)
  /\ @Config.sameDay Sample.host (Sample.local 2024 3 9 23 59 59) (Sample.local 2024 3 10 0 0 0)
     = false
  /\ existsb is_network_call (emitted (@Config.fetchQuote Sample.host) (Sample.next_day None))
     = true.
Proof.
  repeat (split; [vm_compute; reflexivity |]).
  apply (proj2 (proj2 (proj2 (@C6_freshness_is_calendar_day_equality Sample.host)))
           (Sample.next_day None) (Sample.old_file (Sample.local 2024 3 9 23 59 59)));
    vm_compute; reflexivity.
Defined.

(** *** Effects on the cache file *)

(** C7. The cache file is written only when a refresh succeeds, and a
    write replaces the whole content.  No invocation appends to the file
    or deletes it.  When the entry is not fresh and the request is
    answered with a success status and a first record, there is one
    write, of the two-line text, and the file then holds exactly that
    text whatever it held before.  On every other path (same day,
    transport error, non-success status, unparsable body, empty array)
    nothing is written and file and directory are as they were. *)
Theorem C7_cache_written_only_on_refresh `{Host} (w : World) :
  existsb is_append_or_delete (emitted Config.fetchQuote w) = false
  /\ (forall r rest,
         ~ fresh w -> fetch_succeeded w (r :: rest) ->
         filter is_write (emitted Config.fetchQuote w)
           = [EvWrite (two_lines (Quote.q r) (Quote.a r))]
         /\ cacheFile (snd (Config.fetchQuote w))
            = Some (mkFile (two_lines (Quote.q r) (Quote.a r)) (clock w)))
  /\ (fresh w \/ ~ (exists r rest, fetch_succeeded w (r :: rest)) ->
         filter is_write (emitted Config.fetchQuote w) = []
         /\ cacheFile (snd (Config.fetchQuote w)) = cacheFile w
         /\ cacheDir (snd (Config.fetchQuote w)) = cacheDir w)
  /\ (forall text, In (EvWrite text) (emitted Config.fetchQuote w) ->
         fst (Config.fetchQuote w) = Fulfilled (Some text)
         /\ option_map content (cacheFile (snd (Config.fetchQuote w))) = Some text).
Proof.
  pose proof (Config_fetchQuote_eq w) as E.
  pose proof (uses_cache_fresh w) as F.
  unfold fetch_succeeded.
  destruct (uses_cache w).
  - (* same day *)
    assert (Fr : fresh w) by now apply F.
    erewrite emitted_logged; [| exact E | reflexivity].
    rewrite E. cbn [fst snd logged cacheFile cacheDir].
    unfold probe. destruct (cacheFile w); cbn.
    all: split; [reflexivity |].
    all: split; [intros r rest N; contradiction |].
    all: split; [intros _; repeat split |].
    all: intros text D.
    all: repeat (destruct D as [D | D]; [discriminate |]).
    all: destruct D.
  - assert (NFr : ~ fresh w) by (intros Fr; apply F in Fr; discriminate).
    unfold probe, old_quote_calls in E.
    destruct (network w) as [[[|] [[|r rest]|]]|].
    all: erewrite emitted_logged; [| exact E | reflexivity].
    all: rewrite E; cbv zeta; cbn [fst snd logged stored cacheFile cacheDir].
    all: destruct (cacheFile w); cbn.
    all: split; [reflexivity |].
    all: split; [intros r' rest' _ D; inversion D; subst; split; reflexivity |].
    all: split;
      [intros [Fr | N];
       [contradiction
       | try (exfalso; apply N; eexists; eexists; reflexivity); repeat split] |].
    all: intros text D.
    all: repeat (destruct D as [D | D];
                 [try discriminate; inversion D; subst; split; reflexivity |]).
    all: destruct D.
Qed.

Lemma C7_cache_written_only_on_refresh_witness :
  ~ @fresh Sample.host (Sample.next_day (Sample.answer [Sample.record "Q" "A"]))
  /\ fetch_succeeded (Sample.next_day (Sample.answer [Sample.record "Q" "A"]))
       [Sample.record "Q" "A"]
  /\ filter is_write
       (emitted (@Config.fetchQuote Sample.host)
          (Sample.next_day (Sample.answer [Sample.record "Q" "A"])))
     = [EvWrite (two_lines "Q" "A")]
  /\ cacheFile (snd (@Config.fetchQuote Sample.host
                       (Sample.next_day (Sample.answer [Sample.record "Q" "A"]))))
     = Some (mkFile (two_lines "Q" "A") (Sample.local 2024 3 10 0 0 0)).
Proof.
  assert (N : ~ @fresh Sample.host (Sample.next_day (Sample.answer [Sample.record "Q" "A"]))).
  { intros (f & Ef & E). inversion Ef; subst f. vm_compute in E. discriminate. }
  split; [exact N | split; [reflexivity |]].
  exact (proj1 (proj2 (@C7_cache_written_only_on_refresh Sample.host
                         (Sample.next_day (Sample.answer [Sample.record "Q" "A"]))))
           (Sample.record "Q" "A") [] N eq_refl).
Defined.

(** C10. In [src/config.ts], when a cache entry exists at the invocation,
    [fetchQuote] is never fulfilled with [undefined]; on the same-day
    path, after a successful refresh, after a transport error and after a
    non-success status it is fulfilled with a string. *)
Theorem C10_existing_cache_never_absent `{Host} (w : World) (f : FileNode) :
  cacheFile w = Some f ->
  fst (Config.fetchQuote w) <> Fulfilled None
  /\ (fresh w \/ (exists r rest, fetch_succeeded w (r :: rest)) \/ fetch_failed w ->
      exists s, fst (Config.fetchQuote w) = Fulfilled (Some s)).
Proof.
  intros Ef.
  pose proof (Config_fetchQuote_eq w) as E.
  pose proof (uses_cache_fresh w) as F.
  unfold old_quote in E. rewrite Ef in E.
  unfold fetch_succeeded, fetch_failed.
  destruct (uses_cache w).
  - rewrite E. split; [discriminate | intros _; eexists; reflexivity].
  - destruct (network w) as [[[|] [[|r rest]|]]|]; rewrite E; cbn [fst];
      (split; [discriminate |]);
      try (intros _; eexists; reflexivity).
    intros [Fr | [(r & rest & D) | [D | (b & D)]]]; try discriminate.
    apply F in Fr. discriminate.
Qed.

Lemma C10_existing_cache_never_absent_witness :
  cacheFile (Sample.next_day Sample.refused)
    = Some (Sample.old_file (Sample.local 2024 3 9 23 59 59))
  /\ fst (@Config.fetchQuote Sample.host (Sample.next_day Sample.refused)) <> Fulfilled None.
Proof.
  split; [reflexivity |].
  apply (@C10_existing_cache_never_absent Sample.host (Sample.next_day Sample.refused)
           (Sample.old_file (Sample.local 2024 3 9 23 59 59))).
  reflexivity.
Defined.

(** *** The two variants *)

(** C9, as stated, fails: with a stale entry and a transport error the
    variant of [src/unnamed/part_000] does not return [undefined], it
    rejects with the error of [fetch], while [src/config.ts] returns the
    prior content. *)
Lemma C9_transport_error_counterexample :
  @stale Sample.host (Sample.next_day None) (Sample.old_file (Sample.local 2024 3 9 23 59 59))
  /\ fetch_failed (Sample.next_day None)
  /\ fst (@Part000.fetchQuote Sample.host (Sample.next_day None)) = Rejected NetworkError
  /\ fst (@Part000.fetchQuote Sample.host (Sample.next_day None)) <> Fulfilled None
  /\ fst (@Config.fetchQuote Sample.host (Sample.next_day None))
     = Fulfilled (Some Sample.old_text).
Proof.
  split; [split; [reflexivity | vm_compute; discriminate] |].
  split; [left; reflexivity |].
  split; [vm_compute; reflexivity |].
  split; [vm_compute; discriminate | vm_compute; reflexivity].
Qed.

(** C9, amended.  The two variants behave alike (same result, same host
    calls, same cache) whenever the entry is fresh or the request is
    answered with a success status and a body that parses.  With a stale
    entry and a non-success status, [part_000] returns [undefined] and
    [config.ts] the prior content.  With a stale entry and a transport
    error, [part_000] rejects with that error and [config.ts] returns the
    prior content.  Their results are equal exactly when the entry is
    fresh, or the body of a success response parses, or no entry exists
    and the status is a non-success one. *)
Theorem C9_variants_differ_on_failed_fetch `{Host} (w : World) :
  (fresh w \/ (exists data, fetch_succeeded w data) ->
     Part000.fetchQuote w = Config.fetchQuote w)
  /\ (forall f b, stale w f -> network w = Some (mkResponse false b) ->
        fst (Part000.fetchQuote w) = Fulfilled None
        /\ fst (Config.fetchQuote w) = Fulfilled (Some (content f)))
  /\ (forall f, stale w f -> network w = None ->
        fst (Part000.fetchQuote w) = Rejected NetworkError
        /\ fst (Config.fetchQuote w) = Fulfilled (Some (content f)))
  /\ (fst (Part000.fetchQuote w) = fst (Config.fetchQuote w)
      <-> fresh w \/ (exists data, fetch_succeeded w data)
          \/ (cacheFile w = None /\ exists b, network w = Some (mkResponse false b))).
Proof.
  pose proof (Config_fetchQuote_eq w) as EC.
  pose proof (Part000_fetchQuote_eq w) as EP.
  pose proof (uses_cache_fresh w) as F.
  assert (St : forall f, stale w f -> uses_cache w = false /\ old_quote w = Some (content f)).
  { intros f S. split; [now apply uses_cache_stale with f |].
    destruct S as [Ef _]. unfold old_quote. now rewrite Ef. }
  unfold fetch_succeeded.
  split; [| split; [| split]].
  - intros [Fr | [data D]].
    + apply F in Fr. rewrite Fr in EC, EP. congruence.
    + rewrite D in EC, EP. rewrite EC, EP.
      destruct (uses_cache w); [reflexivity |]. destruct data; reflexivity.
  - intros f b S D. destruct (St f S) as [U O].
    rewrite U, D in EC, EP. rewrite EC, EP, O. split; reflexivity.
  - intros f S D. destruct (St f S) as [U O].
    rewrite U, D in EC, EP. rewrite EC, EP, O. split; reflexivity.
  - rewrite EC, EP. unfold old_quote.
    destruct (uses_cache w).
    + split; [intros _; left; now apply F | reflexivity].
    + assert (NFr : ~ fresh w) by (intros Fr; apply F in Fr; discriminate).
      destruct (network w) as [[[|] [[|r rest]|]]|]; cbn [fst];
        destruct (cacheFile w) as [f|]; split; try discriminate; try reflexivity.
      all: try (intros _; right; left; eexists; reflexivity).
      all: try (intros _; right; right; split; [reflexivity | eexists; reflexivity]).
      all: intros [Fr | [[data D] | [D [b D']]]]; try contradiction; discriminate.
Qed.

Lemma C9_variants_differ_on_failed_fetch_witness :
  @stale Sample.host (Sample.next_day Sample.refused)
    (Sample.old_file (Sample.local 2024 3 9 23 59 59))
  /\ network (Sample.next_day Sample.refused) = Some (mkResponse false None)
  /\ fst (@Part000.fetchQuote Sample.host (Sample.next_day Sample.refused)) = Fulfilled None
  /\ fst (@Config.fetchQuote Sample.host (Sample.next_day Sample.refused))
     = Fulfilled (Some Sample.old_text).
Proof.
  assert (S : @stale Sample.host (Sample.next_day Sample.refused)
                (Sample.old_file (Sample.local 2024 3 9 23 59 59))).
  { split; [reflexivity | vm_compute; discriminate]. }
  split; [exact S | split; [reflexivity |]].
  exact (proj1 (proj2 (@C9_variants_differ_on_failed_fetch Sample.host
                         (Sample.next_day Sample.refused)))
           (Sample.old_file (Sample.local 2024 3 9 23 59 59)) None S eq_refl).
Defined.

(** *** The dashboard *)

Lemma shell_absent_iff (e : ProcessEnv) : Config.shell e = None <-> SHELL e = None.
Proof.
  unfold Config.shell. destruct (SHELL e) as [s|]; [| tauto].
  split; [| discriminate].
  unfold Text.at_last. intros N. exfalso.
  apply nth_error_None in N.
  assert (L : (0 < List.length (Text.split "/" s))%nat).
  { clear N. induction s as [|ch s IH]; cbn; [lia |].
    destruct (Ascii.eqb ch "/"); cbn; [lia |].
    destruct (Text.split "/" s); cbn; lia. }
  lia.
Qed.

(** C8. In the dashboard, after the eight fixed entries that end with
    the "Environment" header come exactly the lines of those among shell,
    terminal, editor, browser and desktop session that are present, in
    this order, then a divider, then the line of the quote if it is
    present.  An absent value contributes no entry at all: the list has
    nine entries plus one per present value, three of them dividers.  The
    line of the quote is the only entry made of a text without an icon. *)
Theorem C8_absent_values_are_omitted `{Host} (sys : System) (quote : option string) :
  let e := env sys in
  let d := Config.dashboard_of sys quote in
  skipn 8 d
  = (map (fun kv => Line (Some (Config.style palette.yellow (fst kv)))
                         (Config.style palette.text (snd kv)))
         (omit_absent
            [ (Text.utf8 0xebca, Config.shell e);
              (Text.utf8 0xea85, Config.term e);
              (Text.utf8 0xf044, Config.editor e);
              (Text.utf8 (Text.pair 0xdb80 0xde39), Config.browser e);
              (Text.utf8 (Text.pair 0xdb80 0xdf79), Config.desktop e) ])
     ++ [Divider " "]
     ++ map (fun kv => Line None (Config.style palette.text (snd kv)))
            (omit_absent [(tt, quote)]))%list
  /\ List.length d
     = (9 + present (Config.shell e) + present (Config.term e) + present (Config.editor e)
        + present (Config.browser e) + present (Config.desktop e) + present quote)%nat
  /\ List.length (filter is_divider d) = 3%nat
  /\ List.length (filter has_icon d)
     = (6 + present (Config.shell e) + present (Config.term e) + present (Config.editor e)
        + present (Config.browser e) + present (Config.desktop e))%nat
  /\ filter text_only d
     = match quote with
       | Some v => [Line None (Config.style palette.text v)]
       | None => []
       end.
Proof.
  intros e d. subst d. unfold Config.dashboard_of. fold e.
  destruct (Config.shell e), (Config.term e), (Config.editor e),
    (Config.browser e), (Config.desktop e), quote;
    repeat split; reflexivity.
Qed.

(** *** The scripts on the sample worlds *)

Example stale_day_refresh :
  @Config.fetchQuote Sample.host (Sample.next_day (Sample.answer [Sample.record "Q" "A"]))
  = (Fulfilled (Some (two_lines "Q" "A")),
     mkWorld true (Some (mkFile (two_lines "Q" "A") (Sample.local 2024 3 10 0 0 0)))
       (Sample.local 2024 3 10 0 0 0) (Sample.answer [Sample.record "Q" "A"])
       [EvExists; EvStat; EvNow; EvFetch Config.url; EvJson; EvWrite (two_lines "Q" "A")]).
Proof. vm_compute. reflexivity. Qed.

Example unparsable_body_falls_back :
  fst (@Config.fetchQuote Sample.host (Sample.next_day (Some (mkResponse true None))))
  = Fulfilled (Some Sample.old_text)
  /\ fst (@Part000.fetchQuote Sample.host (Sample.next_day (Some (mkResponse true None))))
     = Rejected SyntaxError.
Proof. split; vm_compute; reflexivity. Qed.

Example shell_of_path : Text.split "/" "/usr/bin/fish" = [""; "usr"; "bin"; "fish"]%string.
Proof. reflexivity. Qed.

Example sample_dashboard :
  skipn 8 (@Config.dashboard_of Sample.host Sample.system (Some "Q"))
  = [ Line (Some ("[#f9e2af]" ++ Text.utf8 0xebca)) "[#cdd6f4]fish";
      Line (Some ("[#f9e2af]" ++ Text.utf8 0xf044)) "[#cdd6f4]hx";
      Line (Some ("[#f9e2af]" ++ Text.utf8 (Text.pair 0xdb80 0xdf79))) "[#cdd6f4]sway";
      Divider " ";
      Line None "[#cdd6f4]Q" ].
Proof. vm_compute. reflexivity. Qed.

(** ** Further properties of the code *)

(** *** More on [sameDay] *)


(** X2. The dates of one day form an interval of local time shorter than
    24 hours: when [sameDay] accepts [d1] and [d3], their local times are
    less than a day apart, and every date whose local time lies between
    theirs is on the same day as both. *)
Theorem X2_sameDay_interval `{Host} (d1 d2 d3 : Date) :
  Config.sameDay d1 d3 = true ->
  LocalTime (getTime d1) <= LocalTime (getTime d2) <= LocalTime (getTime d3) ->
  LocalTime (getTime d3) - LocalTime (getTime d1) < Time.msPerDay
  /\ Config.sameDay d1 d2 = true
  /\ Config.sameDay d2 d3 = true.
Proof.
  intros E13 Hb.
  apply Config_sameDay_localDay in E13.
  rewrite !Config_sameDay_localDay.
  unfold localDay, Time.Day, Time.msPerDay in *.
  Z.to_euclidean_division_equations; lia.
Qed.

Lemma X2_sameDay_interval_witness :
  @Config.sameDay Sample.host (Sample.local 2024 3 10 0 0 0) (Sample.local 2024 3 10 21 30 0)
  = true
  /\ @LocalTime Sample.host (getTime (Sample.local 2024 3 10 0 0 0))
     <= @LocalTime Sample.host (getTime (Sample.local 2024 3 10 8 0 0))
     <= @LocalTime Sample.host (getTime (Sample.local 2024 3 10 21 30 0))
  /\ @Config.sameDay Sample.host (Sample.local 2024 3 10 0 0 0) (Sample.local 2024 3 10 8 0 0)
     = true.
Proof.
  split; [vm_compute; reflexivity |].
  split; [vm_compute; split; discriminate |].
  apply (@X2_sameDay_interval Sample.host (Sample.local 2024 3 10 0 0 0)
           (Sample.local 2024 3 10 8 0 0) (Sample.local 2024 3 10 21 30 0)).
  - vm_compute; reflexivity.
  - vm_compute; split; discriminate.
Defined.
(** *** More on [fetchQuote] in [src/config.ts] *)

(** What an invocation depends on: the cache file, the clock and the
    network, not the directory flag nor the calls made before. *)
Lemma Config_fetchQuote_frame `{Host} (w1 w2 : World) :
  cacheFile w1 = cacheFile w2 -> clock w1 = clock w2 -> network w1 = network w2 ->
  fst (Config.fetchQuote w1) = fst (Config.fetchQuote w2)
  /\ cacheFile (snd (Config.fetchQuote w1)) = cacheFile (snd (Config.fetchQuote w2))
  /\ emitted Config.fetchQuote w1 = emitted Config.fetchQuote w2.
Proof.
  intros Ef Ec En.
  destruct w1 as [dir1 file1 clk1 net1 tr1], w2 as [dir2 file2 clk2 net2 tr2].
  cbn [cacheFile clock network] in Ef, Ec, En. subst file2 clk2 net2.
  pose proof (Config_fetchQuote_eq (mkWorld dir1 file1 clk1 net1 tr1)) as E1.
  pose proof (Config_fetchQuote_eq (mkWorld dir2 file1 clk1 net1 tr2)) as E2.
  unfold uses_cache, probe, old_quote, old_quote_calls in E1, E2.
  cbn [cacheFile clock network] in E1, E2.
  destruct file1 as [f|];
    [destruct (Config.sameDay (modified f) clk1) |];
    try destruct net1 as [[[|] [[|r rest]|]]|].
  all: erewrite (emitted_logged _ (mkWorld dir1 _ _ _ tr1)); [| exact E1 | reflexivity].
  all: erewrite (emitted_logged _ (mkWorld dir2 _ _ _ tr2)); [| exact E2 | reflexivity].
  all: rewrite E1, E2; repeat split.
Qed.




(** X5. A success status with a body that is not JSON is handled like a
    failed request: [fetchQuote] is fulfilled with the prior content, or
    with [undefined] when there is no entry, and writes nothing. *)
Theorem X5_unparsable_body_falls_back `{Host} (w : World) :
  ~ fresh w ->
  fetch_unparsable w ->
  fst (Config.fetchQuote w) = Fulfilled (option_map content (cacheFile w))
  /\ cacheFile (snd (Config.fetchQuote w)) = cacheFile w
  /\ cacheDir (snd (Config.fetchQuote w)) = cacheDir w
  /\ filter is_write (emitted Config.fetchQuote w) = [].
Proof.
  intros N U.
  pose proof (Config_fetchQuote_eq w) as E.
  pose proof (uses_cache_fresh w) as F.
  destruct (uses_cache w); [exfalso; apply N; now apply F |].
  unfold fetch_unparsable in U. rewrite U in E.
  erewrite emitted_logged; [| exact E | reflexivity].
  rewrite E. cbn [fst snd logged cacheFile cacheDir].
  unfold old_quote, probe, old_quote_calls.
  destruct (cacheFile w); repeat split.
Qed.

Lemma X5_unparsable_body_falls_back_witness :
  ~ @fresh Sample.host (Sample.next_day (Some (mkResponse true None)))
  /\ fetch_unparsable (Sample.next_day (Some (mkResponse true None)))
  /\ fst (@Config.fetchQuote Sample.host (Sample.next_day (Some (mkResponse true None))))
     = Fulfilled (Some Sample.old_text).
Proof.
  assert (N : ~ @fresh Sample.host (Sample.next_day (Some (mkResponse true None)))).
  { intros (f & Ef & E). inversion Ef; subst f. vm_compute in E. discriminate. }
  split; [exact N | split; [reflexivity |]].
  apply (@X5_unparsable_body_falls_back Sample.host
           (Sample.next_day (Some (mkResponse true None))) N).
  reflexivity.
Defined.

(** X6. An invocation makes no host call twice, and it goes to the
    network exactly when the entry is not fresh: then there is one
    request, to the address of the quotes API. *)
Theorem X6_one_request_iff_not_fresh `{Host} (w : World) :
  NoDup (emitted Config.fetchQuote w)
  /\ (fresh w -> filter is_network_call (emitted Config.fetchQuote w) = [])
  /\ (~ fresh w ->
      filter is_network_call (emitted Config.fetchQuote w)
      = [EvFetch "https://zenquotes.io/api/random/"]).
Proof.
  pose proof (Config_fetchQuote_eq w) as E.
  pose proof (uses_cache_fresh w) as F.
  unfold probe, old_quote_calls in E.
  destruct (uses_cache w);
    [| destruct (network w) as [[[|] [[|r0 rest]|]]|]];
    (erewrite emitted_logged; [| exact E | reflexivity]);
    destruct (cacheFile w); cbn.
  all: split;
    [repeat (constructor; [cbn; intuition discriminate |]); constructor |].
  all: split; [intros Fr | intros N]; try reflexivity.
  all: try (apply F in Fr; discriminate).
  all: exfalso; apply N; now apply F.
Qed.

(** X7. Of the response only the quote and the author of the first
    record are used: two answers whose first records agree on [q] and [a]
    give the same result, the same calls and the same cache file, whatever
    the other fields and the other records are. *)
Theorem X7_only_first_record_is_used `{Host}
    (w : World) (r1 r2 : Quote.t) (rest1 rest2 : Response) :
  Quote.q r1 = Quote.q r2 ->
  Quote.a r1 = Quote.a r2 ->
  fst (Config.fetchQuote (with_network (Some (mkResponse true (Some (r1 :: rest1)))) w))
  = fst (Config.fetchQuote (with_network (Some (mkResponse true (Some (r2 :: rest2)))) w))
  /\ cacheFile (snd (Config.fetchQuote
                       (with_network (Some (mkResponse true (Some (r1 :: rest1)))) w)))
     = cacheFile (snd (Config.fetchQuote
                         (with_network (Some (mkResponse true (Some (r2 :: rest2)))) w)))
  /\ emitted Config.fetchQuote (with_network (Some (mkResponse true (Some (r1 :: rest1)))) w)
     = emitted Config.fetchQuote (with_network (Some (mkResponse true (Some (r2 :: rest2)))) w).
Proof.
  intros Eq Ea.
  pose proof (Config_fetchQuote_eq
                (with_network (Some (mkResponse true (Some (r1 :: rest1)))) w)) as E1.
  pose proof (Config_fetchQuote_eq
                (with_network (Some (mkResponse true (Some (r2 :: rest2)))) w)) as E2.
  unfold uses_cache, probe, old_quote, old_quote_calls, with_network in *.
  cbn [cacheFile clock network] in E1, E2.
  rewrite Eq, Ea in E1.
  destruct (cacheFile w) as [f|]; [destruct (Config.sameDay (modified f) (clock w)) |].
  all: erewrite (emitted_logged _ _ _ _ _ E1); [| reflexivity].
  all: erewrite (emitted_logged _ _ _ _ _ E2); [| reflexivity].
  all: rewrite E1, E2; repeat split.
Qed.

Lemma X7_only_first_record_is_used_witness :
  Quote.q (Quote.mk "Q" "A" "image" "1" "<p>Q</p>") = Quote.q (Sample.record "Q" "A")
  /\ Quote.a (Quote.mk "Q" "A" "image" "1" "<p>Q</p>") = Quote.a (Sample.record "Q" "A")
  /\ fst (@Config.fetchQuote Sample.host
            (with_network
               (Some (mkResponse true
                        (Some [Quote.mk "Q" "A" "image" "1" "<p>Q</p>"; Sample.record "R" "B"])))
               (Sample.next_day None)))
     = fst (@Config.fetchQuote Sample.host
              (with_network (Some (mkResponse true (Some [Sample.record "Q" "A"])))
                 (Sample.next_day None))).
Proof.
  split; [reflexivity | split; [reflexivity |]].
  apply (@X7_only_first_record_is_used Sample.host (Sample.next_day None)
           (Quote.mk "Q" "A" "image" "1" "<p>Q</p>") (Sample.record "Q" "A")
           [Sample.record "R" "B"] []); reflexivity.
Defined.



(** X9. An invocation that does not refresh leaves no mark: whether it
    used the fresh entry, fell back after a failure or rejected, a later
    invocation behaves (result, calls, cache file) as if it were the first
    one.  In particular a failed request is tried again by the next
    invocation. *)
Theorem X9_no_refresh_leaves_no_mark `{Host}
    (w : World) (now : Date) (net : option HttpResponse) :
  fresh w \/ ~ (exists r rest, fetch_succeeded w (r :: rest)) ->
  fst (Config.fetchQuote (later now net (snd (Config.fetchQuote w))))
  = fst (Config.fetchQuote (later now net w))
  /\ cacheFile (snd (Config.fetchQuote (later now net (snd (Config.fetchQuote w)))))
     = cacheFile (snd (Config.fetchQuote (later now net w)))
  /\ emitted Config.fetchQuote (later now net (snd (Config.fetchQuote w)))
     = emitted Config.fetchQuote (later now net w).
Proof.
  intros Hp.
  apply Config_fetchQuote_frame; try reflexivity.
  cbn [later with_clock with_network cacheFile].
  pose proof (Config_fetchQuote_eq w) as E.
  pose proof (uses_cache_fresh w) as F.
  destruct (uses_cache w).
  - now rewrite E.
  - destruct Hp as [Fr | N]; [apply F in Fr; discriminate |].
    unfold fetch_succeeded in N.
    destruct (network w) as [[[|] [[|r rest]|]]|]; rewrite E; try reflexivity.
    exfalso. apply N. now exists r, rest.
Qed.

Lemma X9_no_refresh_leaves_no_mark_witness :
  (@fresh Sample.host (Sample.next_day None)
   \/ ~ (exists r rest, fetch_succeeded (Sample.next_day None) (r :: rest)))
  /\ fst (@Config.fetchQuote Sample.host
            (later (Sample.local 2024 3 10 8 0 0) (Sample.answer [Sample.record "Q" "A"])
               (snd (@Config.fetchQuote Sample.host (Sample.next_day None)))))
     = Fulfilled (Some (two_lines "Q" "A")).
Proof.
  assert (P : @fresh Sample.host (Sample.next_day None)
              \/ ~ (exists r rest, fetch_succeeded (Sample.next_day None) (r :: rest))).
  { right. intros (r & rest & D). discriminate D. }
  split; [exact P |].
  rewrite (proj1 (@X9_no_refresh_leaves_no_mark Sample.host (Sample.next_day None)
                    (Sample.local 2024 3 10 8 0 0) (Sample.answer [Sample.record "Q" "A"]) P)).
  vm_compute; reflexivity.
Defined.

(** X10. The two-line form of the cache is kept: if the cache file, when
    there is one, holds a text of the form quote, line feed, ["~ "],
    author, then so it does after the invocation, and every string the
    invocation returns has that form. *)
Theorem X10_two_line_format_is_kept `{Host} (w : World) :
  cache_well_formed w ->
  cache_well_formed (snd (Config.fetchQuote w))
  /\ (forall s, fst (Config.fetchQuote w) = Fulfilled (Some s) -> two_line_text s).
Proof.
  intros WF.
  pose proof (Config_fetchQuote_eq w) as E.
  unfold cache_well_formed in *. unfold old_quote in E.
  destruct (uses_cache w);
    [| destruct (network w) as [[[|] [[|r rest]|]]|]];
    rewrite E; cbv zeta; cbn [fst snd logged stored cacheFile];
    (split; [try exact WF | intros s D]).
  all: try (destruct (cacheFile w) as [f|]; inversion D; subst; now apply WF).
  all: try discriminate.
  - intros f D. inversion D; subst. cbn [content]. now exists (Quote.q r), (Quote.a r).
  - inversion D. now exists (Quote.q r), (Quote.a r).
Qed.

Lemma X10_two_line_format_is_kept_witness :
  cache_well_formed (Sample.next_day None)
  /\ cache_well_formed (snd (@Config.fetchQuote Sample.host (Sample.next_day None))).
Proof.
  assert (WF : cache_well_formed (Sample.next_day None)).
  { intros f Ef. inversion Ef; subst f. now exists "Old", "X". }
  split; [exact WF |].
  apply (@X10_two_line_format_is_kept Sample.host (Sample.next_day None) WF).
Defined.

(** X11. The cache entry is never lost: a cache file that exists before
    an invocation exists after it, and a cache file always lies in an
    existing directory if it did before. *)
Theorem X11_cache_entry_is_never_lost `{Host} (w : World) :
  (forall f, cacheFile w = Some f -> exists f', cacheFile (snd (Config.fetchQuote w)) = Some f')
  /\ (file_in_directory w -> file_in_directory (snd (Config.fetchQuote w))).
Proof.
  pose proof (Config_fetchQuote_eq w) as E.
  unfold file_in_directory.
  destruct (uses_cache w);
    [| destruct (network w) as [[[|] [[|r rest]|]]|]];
    rewrite E; cbv zeta; cbn [fst snd logged stored cacheFile cacheDir];
    (split; [intros f Ef; eauto | intros D; try exact D]).
  intros f _. reflexivity.
Qed.

(** *** More on [fetchQuote] in [src/unnamed/part_000] *)


(** X13. The earlier variant never hands out a stale quote: a string it
    returns is the content of a fresh entry or the text it has just
    fetched and stored; and it returns [undefined] exactly when the entry
    is not fresh and the status is a non-success one, even if a cache
    entry exists. *)
Theorem X13_part000_returns_no_stale_quote `{Host} (w : World) :
  (forall s, fst (Part000.fetchQuote w) = Fulfilled (Some s) ->
     (fresh w /\ option_map content (cacheFile w) = Some s)
     \/ (~ fresh w /\ exists r rest,
           fetch_succeeded w (r :: rest) /\ s = two_lines (Quote.q r) (Quote.a r)))
  /\ (fst (Part000.fetchQuote w) = Fulfilled None
      <-> ~ fresh w /\ exists b, network w = Some (mkResponse false b)).
Proof.
  pose proof (Part000_fetchQuote_eq w) as E.
  pose proof (uses_cache_fresh w) as F.
  unfold fetch_succeeded.
  destruct (uses_cache w) eqn:U.
  - assert (Fr : fresh w) by now apply F.
    rewrite E. cbn [fst]. unfold old_quote. split.
    + intros s D. left. split; [exact Fr |].
      destruct (cacheFile w); inversion D; reflexivity.
    + destruct Fr as (f & Ef & _). rewrite Ef.
      split; [discriminate | intros (N & _); exfalso; apply N; now apply F].
  - assert (NFr : ~ fresh w) by (intros Fr; apply F in Fr; discriminate).
    destruct (network w) as [[[|] [[|r0 rest]|]]|]; rewrite E; cbv zeta; cbn [fst].
    all: split;
      [intros s D; try discriminate
      | split; [intros D; try discriminate | intros (_ & b & D); try discriminate]].
    all: try reflexivity.
    + inversion D. right. split; [exact NFr |]. now exists r0, rest.
    + split; [exact NFr | eexists; reflexivity].
    + split; [exact NFr | eexists; reflexivity].
    + split; [exact NFr | eexists; reflexivity].
Qed.

(** X14. The two variants store the same: in every world they leave the
    same cache file and the same directory, and make the same writes;
    they differ only in what they return and in reading the old entry. *)
Theorem X14_variants_store_the_same `{Host} (w : World) :
  cacheFile (snd (Part000.fetchQuote w)) = cacheFile (snd (Config.fetchQuote w))
  /\ cacheDir (snd (Part000.fetchQuote w)) = cacheDir (snd (Config.fetchQuote w))
  /\ filter is_write (emitted Part000.fetchQuote w)
     = filter is_write (emitted Config.fetchQuote w)
  /\ filter is_network_call (emitted Part000.fetchQuote w)
     = filter is_network_call (emitted Config.fetchQuote w).
Proof.
  pose proof (Config_fetchQuote_eq w) as EC.
  pose proof (Part000_fetchQuote_eq w) as EP.
  unfold probe, old_quote_calls in EC, EP.
  destruct (uses_cache w);
    [| destruct (network w) as [[[|] [[|r0 rest]|]]|]].
  all: erewrite (emitted_logged Config.fetchQuote); [| exact EC | reflexivity].
  all: erewrite (emitted_logged Part000.fetchQuote); [| exact EP | reflexivity].
  all: rewrite EC, EP; cbv zeta; cbn [snd logged stored cacheFile cacheDir].
  all: destruct (cacheFile w); repeat split.
Qed.

(** X15. [src/config.ts] is never worse than the earlier variant: what
    the earlier variant returns as a string, [config.ts] returns too;
    where the earlier variant returns [undefined] or rejects with the
    error of [fetch] or of [json()], [config.ts] returns the prior
    content, or [undefined] when there is no entry. *)
Theorem X15_config_refines_part000 `{Host} (w : World) :
  (forall s, fst (Part000.fetchQuote w) = Fulfilled (Some s) ->
             fst (Config.fetchQuote w) = Fulfilled (Some s))
  /\ (fst (Part000.fetchQuote w) = Fulfilled None
      \/ fst (Part000.fetchQuote w) = Rejected NetworkError
      \/ fst (Part000.fetchQuote w) = Rejected SyntaxError ->
      fst (Config.fetchQuote w) = Fulfilled (option_map content (cacheFile w))).
Proof.
  pose proof (Config_fetchQuote_eq w) as EC.
  pose proof (Part000_fetchQuote_eq w) as EP.
  unfold old_quote in EC, EP.
  destruct (uses_cache w);
    [| destruct (network w) as [[[|] [[|r0 rest]|]]|]];
    rewrite EC, EP; cbv zeta; cbn [fst];
    (split; [intros s D; try discriminate; exact D
            | intros [D | [D | D]]; try discriminate]).
  all: destruct (cacheFile w); try discriminate; reflexivity.
Qed.

Lemma X15_config_refines_part000_witness :
  fst (@Part000.fetchQuote Sample.host (Sample.next_day None)) = Rejected NetworkError
  /\ fst (@Config.fetchQuote Sample.host (Sample.next_day None))
     = Fulfilled (Some Sample.old_text).
Proof.
  split; [vm_compute; reflexivity |].
  apply (proj2 (@X15_config_refines_part000 Sample.host (Sample.next_day None))).
  right; left. vm_compute; reflexivity.
Defined.

(** *** The shell name *)

Lemma string_app_assoc (s1 s2 s3 : string) : ((s1 ++ s2) ++ s3 = s1 ++ (s2 ++ s3))%string.
Proof. induction s1 as [|ch s1 IH]; cbn; [reflexivity | now rewrite IH]. Qed.

Lemma string_app_inv_head (s t1 t2 : string) : (s ++ t1 = s ++ t2)%string -> t1 = t2.
Proof.
  induction s as [|ch s IH]; cbn; intros E; [exact E | apply IH; now inversion E].
Qed.

Lemma split_not_nil (sep : ascii) (s : string) : Text.split sep s <> [].
Proof.
  destruct s as [|ch s]; cbn; [discriminate |].
  destruct (Ascii.eqb ch sep); [discriminate |].
  destruct (Text.split sep s); discriminate.
Qed.

Lemma split_without_separator (sep : ascii) (t : string) :
  occurs sep t = false -> Text.split sep t = [t].
Proof.
  induction t as [|ch t IH]; cbn; [reflexivity |].
  intros O. apply orb_false_iff in O. destruct O as [Hch O].
  rewrite Hch, (IH O). reflexivity.
Qed.

Lemma split_at_separator (sep : ascii) (p t : string) :
  Text.split sep (p ++ String sep t) = (Text.split sep p ++ Text.split sep t)%list.
Proof.
  induction p as [|ch p IH]; cbn.
  - now rewrite Ascii.eqb_refl.
  - rewrite IH. destruct (Ascii.eqb ch sep); [reflexivity |].
    pose proof (split_not_nil sep p) as N.
    destruct (Text.split sep p) as [|x xs]; [contradiction | reflexivity].
Qed.

Lemma at_last_snoc {A} (l : list A) (x : A) : Text.at_last (l ++ [x]) = Some x.
Proof.
  unfold Text.at_last. rewrite length_app. cbn [List.length].
  replace (Nat.pred (List.length l + 1)) with (List.length l) by lia.
  rewrite nth_error_app2 by lia. now rewrite Nat.sub_diag.
Qed.

(** Every string ends in a part without separator that is the whole
    string or follows a separator. *)
Lemma after_last_separator (sep : ascii) (s : string) :
  exists p t, (s = p ++ t)%string /\ occurs sep t = false
              /\ (p = EmptyString \/ exists p', (p = p' ++ String sep EmptyString)%string).
Proof.
  induction s as [|ch s (p & t & Es & O & Hp)].
  - exists EmptyString, EmptyString. repeat split. now left.
  - destruct Hp as [-> | (p' & ->)].
    + cbn in Es. subst s. destruct (Ascii.eqb ch sep) eqn:Hch.
      * apply Ascii.eqb_eq in Hch. subst ch.
        exists (String sep EmptyString), t. repeat split; [exact O |].
        right. now exists EmptyString.
      * exists EmptyString, (String ch t). repeat split; [| now left].
        cbn. now rewrite Hch, O.
    + exists (String ch (p' ++ String sep EmptyString))%string, t.
      repeat split; [now rewrite Es | exact O |].
      right. now exists (String ch p').
Qed.

Lemma at_last_split (sep : ascii) (p t : string) :
  occurs sep t = false ->
  (p = EmptyString \/ exists p', (p = p' ++ String sep EmptyString)%string) ->
  Text.at_last (Text.split sep (p ++ t)) = Some t.
Proof.
  intros O [-> | (p' & ->)].
  - cbn. now rewrite (split_without_separator sep t O).
  - rewrite string_app_assoc. cbn [append].
    rewrite split_at_separator, (split_without_separator sep t O).
    apply at_last_snoc.
Qed.

(** X16. The shell shown is the part of [SHELL] after its last slash:
    [shell] is [t] exactly when [SHELL] is set to some [p ++ t] where [t]
    has no slash and [p] is empty or ends in a slash. *)
Theorem X16_shell_is_last_path_segment (e : ProcessEnv) (t : string) :
  Config.shell e = Some t
  <-> exists p, SHELL e = Some (p ++ t)%string
                /\ occurs "/" t = false
                /\ (p = EmptyString \/ exists p', (p = p' ++ "/")%string).
Proof.
  unfold Config.shell. split.
  - destruct (SHELL e) as [s|]; [| discriminate].
    intros E.
    destruct (after_last_separator "/" s) as (p & t' & Es & O & Hp).
    subst s. rewrite (at_last_split "/" p t' O Hp) in E.
    inversion E; subst t'. now exists p.
  - intros (p & Es & O & Hp). rewrite Es. now apply at_last_split.
Qed.

Lemma X16_shell_is_last_path_segment_witness :
  Config.shell (env Sample.system) = Some "fish".
Proof.
  apply (proj2 (X16_shell_is_last_path_segment (env Sample.system) "fish")).
  exists "/usr/bin/". repeat split. right. now exists "/usr/bin".
Defined.

(** X17. A shell line is left out only when [SHELL] is not set.  A
    [SHELL] that is set always gives a line, also when nothing follows
    its last slash: the line then shows an empty name. *)
Theorem X17_shell_line_unless_unset `{Host} (sys : System) (quote : option string) :
  (Config.shell (env sys) = None <-> SHELL (env sys) = None)
  /\ (forall p, SHELL (env sys) = Some (p ++ "/")%string ->
        In (Line (Some (Config.style palette.yellow (Text.utf8 0xebca)))
                 (Config.style palette.text EmptyString))
           (Config.dashboard_of sys quote)).
Proof.
  split; [apply shell_absent_iff |].
  intros p Es.
  assert (E : Config.shell (env sys) = Some EmptyString).
  { unfold Config.shell. rewrite Es.
    replace (p ++ "/")%string with ((p ++ "/") ++ EmptyString)%string
      by (rewrite string_app_assoc; reflexivity).
    apply at_last_split; [reflexivity | right; now exists p]. }
  unfold Config.dashboard_of. rewrite E. cbn [Config.spread app].
  do 8 right. left. reflexivity.
Qed.

Lemma X17_shell_line_unless_unset_witness :
  SHELL (mkEnv (Some "/bin/") None None None None) = Some ("/bin" ++ "/")%string
  /\ In (Line (Some (@Config.style Sample.host palette.yellow (Text.utf8 0xebca)))
              (@Config.style Sample.host palette.text EmptyString))
        (@Config.dashboard_of Sample.host
           (mkSystem "alice" "GNU/Linux" "x86_64" "up 2 hours" "logo"
              (mkEnv (Some "/bin/") None None None None))
           None).
Proof.
  split; [reflexivity |].
  apply (proj2 (@X17_shell_line_unless_unset Sample.host
                  (mkSystem "alice" "GNU/Linux" "x86_64" "up 2 hours" "logo"
                     (mkEnv (Some "/bin/") None None None None))
                  None) "/bin").
  reflexivity.
Defined.

(** *** More on the dashboard *)

(** X18. The shape of the dashboard: it begins with the line of the user
    name; it ends with the line of the quote if there is a quote and with
    a divider if there is none; and no two dividers follow each other,
    not even when no value of the environment is present. *)
Theorem X18_dashboard_shape `{Host} (sys : System) (quote : option string) :
  hd_error (Config.dashboard_of sys quote)
  = Some (Line (Some (Config.style palette.red (Text.utf8 0xf415)))
               (Config.style palette.text (String_trim (whoami sys))))
  /\ Text.at_last (Config.dashboard_of sys quote)
     = Some (match quote with
             | Some v => Line None (Config.style palette.text v)
             | None => Divider " "
             end)
  /\ adjacent_dividers (Config.dashboard_of sys quote) = false.
Proof.
  unfold Config.dashboard_of.
  destruct (Config.shell (env sys)), (Config.term (env sys)), (Config.editor (env sys)),
    (Config.browser (env sys)), (Config.desktop (env sys)), quote;
    repeat split; reflexivity.
Qed.

(** X19. The quote can be read off the dashboard: for one system, two
    dashboards are equal only if they were made from the same quote (or
    both from none); colouring a text loses nothing of it. *)
Theorem X19_dashboard_determines_quote `{Host} (sys : System) (quote1 quote2 : option string) :
  Config.dashboard_of sys quote1 = Config.dashboard_of sys quote2 -> quote1 = quote2.
Proof.
  unfold Config.dashboard_of. intros E.
  repeat (apply app_inv_head in E).
  destruct quote1 as [v1|], quote2 as [v2|]; cbn in E; try discriminate; [| reflexivity].
  inversion E as [E']. unfold Config.style in E'.
  now rewrite (string_app_inv_head _ _ _ E').
Qed.

Lemma X19_dashboard_determines_quote_witness :
  @Config.dashboard_of Sample.host Sample.system (Some "Q")
  = @Config.dashboard_of Sample.host Sample.system (Some "Q")
  /\ Some "Q" = Some "Q".
Proof.
  split; [reflexivity |].
  apply (@X19_dashboard_determines_quote Sample.host Sample.system). reflexivity.
Defined.



(** X21. The dashboard of the earlier variant is the dashboard of
    [src/config.ts] without the desktop session, up to one icon: with
    [DESKTOP_SESSION] unset the two lists show the same texts in the same
    order, and their entries are equal at every position but the third,
    the "System" header, whose icon differs. *)
Theorem X21_part000_dashboard `{Host} (sys : System) (quote : option string) :
  map entry_text (Part000.dashboard_of sys quote)
  = map entry_text (Config.dashboard_of (without_desktop sys) quote)
  /\ (forall n, n <> 2%nat ->
        nth_error (Part000.dashboard_of sys quote) n
        = nth_error (Config.dashboard_of (without_desktop sys) quote) n)
  /\ option_map entry_icon (nth_error (Part000.dashboard_of sys quote) 2)
     = Some (Some (Part000.style palette.peach (Text.utf8 (Text.pair 0xdb80 0xdf79))))
  /\ option_map entry_icon
       (nth_error (Config.dashboard_of (without_desktop sys) quote) 2)
     = Some (Some (Config.style palette.peach (Text.utf8 (Text.pair 0xdb80 0xddc5)))).
Proof.
  unfold Part000.dashboard_of, Config.dashboard_of, without_desktop.
  cbn [env whoami uname_o uname_m uptime_p].
  unfold Part000.shell, Part000.term, Part000.editor, Part000.browser,
    Config.shell, Config.term, Config.editor, Config.browser, Config.desktop.
  cbn [SHELL TERM EDITOR BROWSER DESKTOP_SESSION].
  destruct (SHELL (env sys)) as [s|];
    [destruct (Text.at_last (Text.split "/" s)) |];
    destruct (TERM (env sys)), (EDITOR (env sys)), (BROWSER (env sys)), quote.
  all: split; [reflexivity | split; [| split; reflexivity]].
  all: intros n Hn.
  all: do 14 (destruct n as [|n]; [try reflexivity; try (now contradiction Hn) |]).
  all: reflexivity.
Qed.

(** X22. Splitting [SHELL] at its slashes loses nothing: no segment
    contains a slash, there is at least one segment, and joining the
    segments with slashes gives the string back. *)
Theorem X22_split_join_round_trip (s : string) :
  join "/" (Text.split "/" s) = s
  /\ Forall (fun segment => occurs "/" segment = false) (Text.split "/" s)
  /\ Text.split "/" s <> [].
Proof.
  split; [| split; [| apply split_not_nil]].
  - induction s as [|ch s IH]; [reflexivity |].
    cbn [Text.split].
    pose proof (split_not_nil "/" s) as N.
    destruct (Ascii.eqb ch "/") eqn:Hch.
    + apply Ascii.eqb_eq in Hch. subst ch.
      destruct (Text.split "/" s) as [|x xs]; [contradiction |].
      cbn [join]. cbn [append]. now rewrite <- IH.
    + destruct (Text.split "/" s) as [|x xs]; [contradiction |].
      rewrite <- IH. destruct xs; reflexivity.
  - induction s as [|ch s IH]; [repeat constructor |].
    cbn [Text.split].
    destruct (Ascii.eqb ch "/") eqn:Hch.
    + constructor; [reflexivity | exact IH].
    + destruct (Text.split "/" s) as [|x xs]; [repeat constructor; cbn; now rewrite Hch |].
      inversion IH as [|? ? Hx Hxs]; subst.
      constructor; [cbn; now rewrite Hch, Hx | exact Hxs].
Qed.
